(** * CustomCalendarChart: the transaction-calendar aggregation engine

    A shallow embedding of the calendar heat-map component
    ([CustomCalendarChart], React/TypeScript): the aggregation of
    transactions into per-day buckets ([processedData]), the years on display
    ([displayYears]), the 31 x 12 grid and its colour scale ([calendarData]),
    the colour of a cell ([getColorIntensity]), the click handler
    ([handleCellClick]), the CSV table ([csvDataForControls]) and the SVG
    export ([downloadCalendarChartAsSVG]).

    Conventions of the embedding.
    - A JavaScript number holding a money amount, a ratio or a pixel length is
      an exact rational ([Q]); a number holding a count or an index is a
      [nat]; a calendar year is a [Z].  NaN, infinities and rounding of
      doubles are outside the model.
    - A [Date] is represented by its local calendar fields, the values of
      [getFullYear], [getMonth] (0-based) and [getDate].  The instants whose
      UTC rendering the component asks for are all local midnights.
    - A [Map] is an association list in insertion order, as the iteration
      order of a JavaScript [Map] is.
    - An exception is the [Throw] case of [result].
    - [useMemo] is read as the function it caches: every derived value is
      recomputed from the current inputs. *)

From Stdlib Require Import Ascii QArith Qminmax Qround Qabs Sorted.
From stdpp Require Import base numbers strings pretty list.

Close Scope Q_scope.
Local Open Scope string_scope.
Local Open Scope nat_scope.

(** ** Results of computations that may throw *)

Inductive result (A : Type) : Type :=
| Ok (a : A)
| Throw (e : string).
Arguments Ok {A} a.
Arguments Throw {A} e.

Definition bind {A B : Type} (r : result A) (k : A → result B) : result B :=
  match r with
  | Ok a => k a
  | Throw e => Throw e
  end.

(** ** The host's [Date] *)

Record Date : Type := mkDate {
  getFullYear : Z;
  getMonth : nat;
  getDate : nat
}.

Global Instance Date_eq_dec : EqDecision Date.
Proof. solve_decision. Defined.

Definition isLeapYear (y : Z) : bool :=
  ((y mod 4 =? 0)%Z && negb (y mod 100 =? 0)%Z) || (y mod 400 =? 0)%Z.

Definition daysInMonth (y : Z) (m : nat) : nat :=
  match m with
  | 1 => if isLeapYear y then 29 else 28
  | 3 | 5 | 8 | 10 => 30
  | _ => 31
  end.

(** The calendar fields a [Date] object can show. *)
Definition Date_wf (d : Date) : Prop :=
  getMonth d < 12 ∧ 1 ≤ getDate d ≤ daysInMonth (getFullYear d) (getMonth d).

Definition nextDay (d : Date) : Date :=
  if getDate d <? daysInMonth (getFullYear d) (getMonth d)
  then mkDate (getFullYear d) (getMonth d) (S (getDate d))
  else if getMonth d <? 11
  then mkDate (getFullYear d) (S (getMonth d)) 1
  else mkDate (getFullYear d + 1) 0 1.

Definition prevDay (d : Date) : Date :=
  if 1 <? getDate d
  then mkDate (getFullYear d) (getMonth d) (pred (getDate d))
  else match getMonth d with
       | 0 => mkDate (getFullYear d - 1) 11 31
       | S m => mkDate (getFullYear d) m (daysInMonth (getFullYear d) m)
       end.

Definition addDays (n : Z) (d : Date) : Date :=
  match n with
  | Z0 => d
  | Zpos p => Pos.iter nextDay d p
  | Zneg p => Pos.iter prevDay d p
  end.

(** [MakeDay] of ECMAScript: months beyond 0..11 carry into the year, days
    beyond the month carry into the following or preceding months. *)
Definition MakeDay (year month day : Z) : Date :=
  addDays (day - 1)
    (mkDate (year + month `div` 12) (Z.to_nat (month `mod` 12)) 1).

(** [new Date(year, month, day)]: a year in 0..99 stands for 1900 + year. *)
Definition MakeFullYear (year : Z) : Z :=
  if (0 <=? year)%Z && (year <=? 99)%Z then (1900 + year)%Z else year.

Definition newDate (year : Z) (month day : nat) : Date :=
  MakeDay (MakeFullYear year) (Z.of_nat month) (Z.of_nat day).

(** [d.setDate(n)] *)
Definition setDate (d : Date) (n : Z) : Date :=
  MakeDay (getFullYear d) (Z.of_nat (getMonth d)) n.

(** [padStart(n, "0")] *)
Fixpoint zeros (n : nat) : string :=
  match n with
  | 0 => ""
  | S n => "0" +:+ zeros n
  end.

Definition padStart (n : nat) (s : string) : string :=
  zeros (n - String.length s) +:+ s.

(** The date part of [toISOString()] for the local midnight of [d], in a zone
    whose local time is UTC plus [tz] minutes: the UTC instant is [tz]
    minutes before that midnight.  Years outside 0..9999 are written with a
    sign and six digits. *)
Definition isoYear (y : Z) : string :=
  if (0 <=? y)%Z && (y <=? 9999)%Z then padStart 4 (pretty y)
  else (if (y <? 0)%Z then "-" else "+") +:+ padStart 6 (pretty (Z.abs y)).

Definition toISODate (tz : Z) (d : Date) : string :=
  let u := addDays ((- tz) `div` 1440) d in
  isoYear (getFullYear u) +:+ "-" +:+ padStart 2 (pretty (S (getMonth u)))
    +:+ "-" +:+ padStart 2 (pretty (getDate u)).

(** ** The host's [Map], in insertion order *)

Section Map.
Context {V : Type}.

Fixpoint Map_get (k : string) (m : list (string * V)) : option V :=
  match m with
  | [] => None
  | (k', v) :: m => if decide (k = k') then Some v else Map_get k m
  end.

Definition Map_has (k : string) (m : list (string * V)) : bool :=
  match Map_get k m with Some _ => true | None => false end.

Fixpoint Map_set (k : string) (v : V) (m : list (string * V))
    : list (string * V) :=
  match m with
  | [] => [(k, v)]
  | (k', v') :: m =>
      if decide (k = k') then (k, v) :: m else (k', v') :: Map_set k v m
  end.

Definition Map_values (m : list (string * V)) : list V := m.*2.
End Map.

(** ** [Array.prototype.sort]: a stable sort *)

Section Sort.
Context {A : Type} (le : A → A → bool).

Fixpoint insert_sorted (x : A) (l : list A) : list A :=
  match l with
  | [] => [x]
  | y :: l' => if le x y then x :: l else y :: insert_sorted x l'
  end.

Definition sort (l : list A) : list A := foldr insert_sorted [] l.
End Sort.

(** ** The host's rendering of numbers *)



(** ** Data of the component *)

Inductive ChartType : Type := income | expense.

Module Transaction.
Record t : Type := mk {
  id : Z;
  date : Date;
  amount : Q;
  currency : string
}.
End Transaction.

(** The value type of the date map, [{ count: number; amount: number }]. *)
Module DayInfo.
Record t : Type := mk {
  count : nat;
  amount : Q
}.
End DayInfo.

Record DayData : Type := mkDayData {
  date : Date;
  count : nat;
  amount : Q;
  isCurrentMonth : bool;
  isToday : bool
}.

Record CalendarData : Type := mkCalendarData {
  grid : list (list DayData);
  maxCount : nat;
  maxAmount : Q;
  monthNames : list string
}.

(** ** [processedData] *)

(** The template literal [`${year}-${month}-${day}`]. *)
Definition dateKeyOf (year : Z) (month day : nat) : string :=
  pretty year +:+ "-" +:+ pretty month +:+ "-" +:+ pretty day.

Fixpoint forEach {A S : Type} (f : A → S → result S) (l : list A) (s : S)
    : result S :=
  match l with
  | [] => Ok s
  | x :: l => bind (f x s) (forEach f l)
  end.

Section Aggregation.
(** [convertForDisplaySync], imported from the currency utilities: it
    returns a number or throws. *)
Variable convertForDisplaySync : Q → string → string → result Q.
Variable currency : string.

(** The body of [data.forEach] in [processedData].  The entry read back
    after [has]/[set] is never missing; [current] is updated in place,
    which for the map is a [set] at its key.  When the conversion throws,
    the callback is left and the map under construction is lost. *)
Definition processTransaction (transaction : Transaction.t)
    (dateMap : list (string * DayInfo.t)) : result (list (string * DayInfo.t)) :=
  let date := Transaction.date transaction in
  let dateKey := dateKeyOf (getFullYear date) (getMonth date) (getDate date) in
  let dateMap :=
    if Map_has dateKey dateMap then dateMap
    else Map_set dateKey (DayInfo.mk 0 0%Q) dateMap in
  let current := default (DayInfo.mk 0 0%Q) (Map_get dateKey dateMap) in
  bind (convertForDisplaySync (Transaction.amount transaction)
          (Transaction.currency transaction)
          (if decide (currency = "") then "USD" else currency))
    (λ convertedAmount,
       Ok (Map_set dateKey
             (DayInfo.mk (DayInfo.count current + 1)
                (DayInfo.amount current + convertedAmount)%Q)
             dateMap)).

Definition processedData (data : list Transaction.t)
    : result (list (string * DayInfo.t)) :=
  forEach processTransaction data [].
End Aggregation.

(** ** [displayYears] *)

(** [Set.prototype.add], the set in insertion order. *)
Definition Set_add (y : Z) (s : list Z) : list Z :=
  if decide (y ∈ s) then s else s ++ [y].

(** [sort()] without a comparator orders by the string forms. *)
Definition displayYears (data : list Transaction.t) : list Z :=
  sort (λ a b, String.leb (pretty a) (pretty b))
    (foldl (λ years transaction,
              Set_add (getFullYear (Transaction.date transaction)) years)
       [] data).

(** ** [calendarData] *)

Definition monthNamesList : list string :=
  ["Jan"; "Feb"; "Mar"; "Apr"; "May"; "Jun";
   "Jul"; "Aug"; "Sep"; "Oct"; "Nov"; "Dec"].

(** [a || b] on numbers: [undefined] and [0] are falsy. *)
Definition orElse (a : option Q) (b : Q) : Q :=
  match a with
  | Some v => if Qeq_bool v 0 then b else v
  | None => b
  end.

Definition positive (a : Q) : bool := negb (Qle_bool a 0).

(** [Math.floor(n * 0.80)]: for a length [n] the product never rounds across
    an integer, so the floor is that of [4n/5]. *)
Definition percentile80Index (n : nat) : nat := (n * 4) `div` 5.

(** The 80th-percentile amount of [calendarData], from the bucket amounts. *)
Definition maxAmountOf (bucketAmounts : list Q) : Q :=
  let amounts := List.filter positive bucketAmounts in
  let sortedAmounts := sort Qle_bool amounts in
  let n := length sortedAmounts in
  if 0 <? n
  then Qmax (orElse (sortedAmounts !! percentile80Index n)
               (orElse (sortedAmounts !! (n - 1)) 1)) 1
  else 1%Q.

(** [Math.max(...counts, 1)] *)
Definition maxCountOf (counts : list nat) : nat := foldr Nat.max 1 counts.

Definition lastDayOfMonth (currentYear : Z) (month : nat) : nat :=
  getDate (newDate currentYear (month + 1) 0).

Section Grid.
Variable today : Date.
Variable processedData : list (string * DayInfo.t).
Variable displayYears : list Z.

(** The body of [displayYears.forEach] on the three running totals. *)
Definition addYear (month dayOfMonth : nat) (acc : nat * Q * bool) (year : Z)
    : nat * Q * bool :=
  let '(totalCount, totalAmount, hasToday) := acc in
  let currentDate := newDate year month dayOfMonth in
  let '(totalCount, totalAmount) :=
    match Map_get (dateKeyOf year month dayOfMonth) processedData with
    | Some dayInfo =>
        (totalCount + DayInfo.count dayInfo,
         (totalAmount + DayInfo.amount dayInfo)%Q)
    | None => (totalCount, totalAmount)
    end in
  (totalCount, totalAmount,
   if decide (currentDate = today) then true else hasToday).

Definition cell (dayOfMonth month : nat) : DayData :=
  let currentYear := getFullYear today in
  let isValidDay := dayOfMonth <=? lastDayOfMonth currentYear month in
  let '(totalCount, totalAmount, hasToday) :=
    if isValidDay
    then foldl (addYear month dayOfMonth) (0, 0%Q, false) displayYears
    else (0, 0%Q, false) in
  mkDayData (newDate currentYear month dayOfMonth)
    totalCount totalAmount isValidDay hasToday.

Definition calendarData : CalendarData :=
  mkCalendarData
    ((λ dayOfMonth, cell dayOfMonth <$> seq 0 12) <$> seq 1 31)
    (maxCountOf (DayInfo.count <$> Map_values processedData))
    (maxAmountOf (DayInfo.amount <$> Map_values processedData))
    monthNamesList.
End Grid.

(** The whole derivation, from the transactions in the context. *)
Definition pipeline (convert : Q → string → string → result Q)
    (currency : string) (today : Date) (data : list Transaction.t)
    : result CalendarData :=
  bind (processedData convert currency data)
    (λ dateMap, Ok (calendarData today dateMap (displayYears data))).

(** ** [getColorIntensity] *)

(** A CSS colour: [transparent], or [rgba(r, g, b, opacity)]. *)
Inductive Color : Type :=
| transparent
| rgba (r g b : nat) (opacity : Q).

Definition baseColors (type : ChartType) : nat * nat * nat :=
  match type with
  | income => (34, 197, 94)
  | expense => (239, 68, 68)
  end.

(** The local [intensity] of [getColorIntensity]. *)
Definition intensity (maxAmount amount : Q) : Q :=
  Qmin (amount / maxAmount) 1.

Definition getColorIntensity (type : ChartType) (maxAmount amount : Q) : Color :=
  if Qeq_bool amount 0 then transparent
  else
    let '(r, g, b) := baseColors type in
    let opacity := Qmax (1 # 10) (intensity maxAmount amount) in
    rgba r g b opacity.

(** ** [handleCellClick] *)

(** The URL handed to [router.push], if any; [tz] is the offset of local time
    from UTC in minutes. *)
Definition handleCellClick (type : ChartType) (tz : Z) (cellData : DayData)
    : option string :=
  if negb (isCurrentMonth cellData) || (count cellData =? 0) then None
  else
    let clickedDate := date cellData in
    let startDate := setDate clickedDate (Z.of_nat (getDate clickedDate) - 1) in
    let endDate := setDate clickedDate (Z.of_nat (getDate clickedDate) + 1) in
    let startDateStr := toISODate tz startDate in
    let endDateStr := toISODate tz endDate in
    let targetPath :=
      match type with income => "/incomes" | expense => "/expenses" end in
    Some (targetPath +:+ "?startDate=" +:+ startDateStr
            +:+ "&endDate=" +:+ endDateStr).

(** ** [csvDataForControls] *)

(** [x.toFixed(2)]: the sign, then the nearest multiple of 1/100, the larger
    one on a tie. *)
Definition toFixed2 (x : Q) : string :=
  let n := Qfloor (Qabs x * 100 + (1 # 2))%Q in
  (if negb (Qle_bool 0 x) then "-" else "")
    +:+ pretty (n `div` 100)%Z +:+ "." +:+ padStart 2 (pretty (n `mod` 100)%Z).

Definition activityLevelOf (count : nat) : string :=
  if count =? 0 then "None"
  else if count =? 1 then "Single"
  else if count <=? 3 then "Low"
  else if count <=? 6 then "Moderate"
  else "High".

Definition csvHeader : list string :=
  ["Day of Month"; "Month"; "Date"; "Transaction Count"; "Total Amount";
   "Average per Transaction"; "Activity Level"; "Valid Day"].

Definition csvRow (monthNames : list string) (rowIndex colIndex : nat)
    (cellData : DayData) : list string :=
  let averageAmount :=
    if 0 <? count cellData
    then (amount cellData / inject_Z (Z.of_nat (count cellData)))%Q
    else 0%Q in
  let activityLevel := activityLevelOf (count cellData) in
  let monthName := default "undefined" (monthNames !! colIndex) in
  let dateString :=
    if isCurrentMonth cellData
    then monthName +:+ " " +:+ pretty (rowIndex + 1)
    else "Invalid" in
  [ pretty (rowIndex + 1);
    default "" (monthNames !! colIndex);
    dateString;
    if isCurrentMonth cellData then pretty (count cellData) else "0";
    if isCurrentMonth cellData then toFixed2 (amount cellData) else "0.00";
    if isCurrentMonth cellData then toFixed2 averageAmount else "0.00";
    if isCurrentMonth cellData then activityLevel else "N/A";
    if isCurrentMonth cellData then "Yes" else "No" ].

(** [grid.flatMap((row, rowIndex) => row.map((cellData, colIndex) => ...))] *)
Definition csvDataForControls (calendarData : CalendarData)
    : list (list string) :=
  csvHeader ::
  mjoin (imap (λ rowIndex row,
                 imap (csvRow (monthNames calendarData) rowIndex) row)
           (grid calendarData)).

(** ** [chartTitle] and [downloadCalendarChartAsSVG] *)

Record SvgElement : Type := mkSvgElement {
  tagName : string;
  attributes : list (string * string);
  textContent : option string
}.

Record SvgDocument : Type := mkSvgDocument {
  svgAttributes : list (string * string);
  childNodes : list SvgElement
}.

(** A sequence of [setAttribute] calls: a repeated name keeps its place and
    takes the later value. *)
Definition setAttributes (l : list (string * string)) : list (string * string) :=
  foldl (λ m kv, Map_set kv.1 kv.2 m) [] l.

Definition textElement (attrs : list (string * string)) (text : string)
    : SvgElement :=
  mkSvgElement "text" (setAttributes attrs) (Some text).

Definition rectElement (attrs : list (string * string)) : SvgElement :=
  mkSvgElement "rect" (setAttributes attrs) None.

(** [Math.min(...l)] on a list that is not empty. *)
Definition minOf (l : list Q) : Q :=
  match l with
  | [] => 0%Q
  | x :: l => foldl Qmin x l
  end.

Definition Qnat (n : nat) : Q := inject_Z (Z.of_nat n).

Definition fontFamily : string * string := ("font-family", "Arial, sans-serif").

Section SvgExport.
(** [Number.prototype.toString] and [toLocaleString], of the host. *)
Variable Number_toString : Q → string.
Variable Number_toLocaleString : Q → string.
(** The props and the context of the component. *)
Variable type : ChartType.
Variable currency : string.
Variable title : option string.
Variable timePeriodText : string.
Variable processedData : list (string * DayInfo.t).
Variable calendarData : CalendarData.

Definition typeName : string :=
  match type with income => "Income" | expense => "Expense" end.

Definition totalTransactions : nat :=
  foldl (λ sum d, sum + DayInfo.count d) 0 (Map_values processedData).

Definition chartTitle : string :=
  let generated :=
    if 0 <? totalTransactions
    then typeName +:+ " Transaction Frequency - " +:+ timePeriodText
           +:+ " • " +:+ pretty totalTransactions +:+ " transaction"
           +:+ (if totalTransactions =? 1 then "" else "s")
    else typeName +:+ " Transaction Frequency - " +:+ timePeriodText in
  match title with
  | Some t => if decide (t = "") then generated else t
  | None => generated
  end.

(** The string [getColorIntensity] returns. *)
Definition Color_toString (c : Color) : string :=
  match c with
  | transparent => "transparent"
  | rgba r g b opacity =>
      "rgba(" +:+ pretty r +:+ ", " +:+ pretty g +:+ ", " +:+ pretty b
        +:+ ", " +:+ Number_toString opacity +:+ ")"
  end.

Definition gridStartX : Q := 40%Q.
Definition gridStartY : Q := 100%Q.
Definition dayLabelWidth : Q := 60%Q.
Definition cellHeight : Q := 25%Q.

Definition svgMonthHeader (cellWidth : Q) (index : nat) (monthName : string)
    : SvgElement :=
  textElement
    [("x", Number_toString
             (gridStartX + dayLabelWidth + Qnat index * cellWidth
                + cellWidth / 2)%Q);
     ("y", Number_toString (gridStartY - 15)%Q);
     ("text-anchor", "middle"); fontFamily; ("font-size", "14");
     ("font-weight", "bold"); ("fill", "#111827")]
    monthName.

Definition svgDayLabel (rowIndex : nat) : SvgElement :=
  textElement
    [("x", Number_toString (gridStartX + dayLabelWidth / 2)%Q);
     ("y", Number_toString
             (gridStartY + Qnat rowIndex * cellHeight + cellHeight / 2 + 5)%Q);
     ("text-anchor", "middle"); fontFamily; ("font-size", "12");
     ("fill", "#6b7280")]
    (pretty (rowIndex + 1)).

Definition svgCell (cellWidth : Q) (rowIndex colIndex : nat)
    (cellData : DayData) : list SvgElement :=
  let x := (gridStartX + dayLabelWidth + Qnat colIndex * cellWidth)%Q in
  let y := (gridStartY + Qnat rowIndex * cellHeight)%Q in
  let backgroundColor :=
    Color_toString
      (getColorIntensity type (maxAmount calendarData) (amount cellData)) in
  rectElement
    ([("x", Number_toString x); ("y", Number_toString y);
      ("width", Number_toString (cellWidth - 3)%Q);
      ("height", Number_toString (cellHeight - 3)%Q); ("rx", "3")]
     ++ (if isCurrentMonth cellData
         then [("fill", if decide (backgroundColor = "transparent")
                        then "#f9fafb" else backgroundColor);
               ("stroke", "#e5e7eb"); ("stroke-width", "1")]
              ++ (if isToday cellData
                  then [("stroke", "#3b82f6"); ("stroke-width", "2")]
                  else [])
         else [("fill", "#f9fafb"); ("stroke", "#e5e7eb");
               ("stroke-width", "1"); ("opacity", "0.3")]))
  :: (if (0 <? count cellData) && isCurrentMonth cellData
      then [textElement
              [("x", Number_toString (x + cellWidth / 2)%Q);
               ("y", Number_toString (y + cellHeight / 2 + 4)%Q);
               ("text-anchor", "middle"); fontFamily; ("font-size", "12");
               ("font-weight", "bold"); ("fill", "#374151")]
              (pretty (count cellData))]
      else []).

Definition svgLegendRect (legendCenterX legendY : Q) (index : nat)
    (intensity : Q) : SvgElement :=
  let '(r, g, b) := baseColors type in
  rectElement
    [("x", Number_toString (legendCenterX - 60 + Qnat index * 24)%Q);
     ("y", Number_toString (legendY - 15)%Q);
     ("width", "20"); ("height", "20"); ("rx", "3");
     ("stroke", "#e5e7eb"); ("stroke-width", "1");
     ("fill", if Qeq_bool intensity 0 then "#f3f4f6"
              else "rgba(" +:+ pretty r +:+ ", " +:+ pretty g +:+ ", "
                     +:+ pretty b +:+ ", " +:+ Number_toString intensity
                     +:+ ")")].

(** The amounts of the legend, from the date map. *)
Definition allAmounts : list Q :=
  List.filter positive (DayInfo.amount <$> Map_values processedData).

Definition minAmount : Q :=
  if 0 <? length allAmounts then minOf allAmounts else 0%Q.

Definition maxScaleAmount : Q :=
  let sortedAmounts := sort Qle_bool allAmounts in
  let n := length sortedAmounts in
  if 0 <? n
  then Qmax (orElse (sortedAmounts !! percentile80Index n)
               (orElse (sortedAmounts !! (n - 1)) 1)) 1
  else 0%Q.

(** [chartRef] is the bounding rectangle (width, height) of the chart
    element, when there is one. *)
Definition downloadCalendarChartAsSVG (chartRef : option (Q * Q))
    : option SvgDocument :=
  match chartRef with
  | None => None
  | Some (rectWidth, rectHeight) =>
      let width := Qmax 2500 (rectWidth * (3 # 2)) in
      let height := Qmax 1000 rectHeight in
      let background :=
        rectElement [("width", "100%"); ("height", "100%");
                     ("fill", "#ffffff")] in
      let titleElement :=
        textElement [("x", "40"); ("y", "40"); fontFamily;
                     ("font-size", "22"); ("font-weight", "bold");
                     ("fill", "#111827")] chartTitle in
      let availableWidth := (width - gridStartX * 2)%Q in
      let gridWidth := (availableWidth - dayLabelWidth)%Q in
      let cellWidth := inject_Z (Qfloor (gridWidth / 12)) in
      let legendY :=
        (gridStartY + Qnat (length (grid calendarData)) * cellHeight + 60)%Q in
      let legendCenterX := (width / 2)%Q in
      let legendText :=
        textElement
          [("x", Number_toString (legendCenterX - 140)%Q);
           ("y", Number_toString legendY); fontFamily;
           ("font-size", "14"); ("fill", "#6b7280")]
          ("Less [" +:+ currency +:+ " "
             +:+ Number_toLocaleString minAmount +:+ "]") in
      let moreText :=
        textElement
          [("x", Number_toString (legendCenterX + 80)%Q);
           ("y", Number_toString legendY); fontFamily;
           ("font-size", "14"); ("fill", "#6b7280")]
          ("More [" +:+ currency +:+ " "
             +:+ Number_toLocaleString maxScaleAmount +:+ "]") in
      Some (mkSvgDocument
              (setAttributes
                 [("width", Number_toString width);
                  ("height", Number_toString height);
                  ("xmlns", "http://www.w3.org/2000/svg")])
              ([background; titleElement]
               ++ imap (svgMonthHeader cellWidth) (monthNames calendarData)
               ++ mjoin (imap (λ rowIndex row,
                                 svgDayLabel rowIndex
                                 :: mjoin (imap (svgCell cellWidth rowIndex) row))
                           (grid calendarData))
               ++ [legendText]
               ++ imap (svgLegendRect legendCenterX legendY)
                    [0%Q; (1 # 4)%Q; (1 # 2)%Q; (3 # 4)%Q; 1%Q]
               ++ [moreText]))
  end.
End SvgExport.

(** ** Terms of the statements *)

(** Strings without the separator of the key. *)
Fixpoint no_dash (s : string) : Prop :=
  match s with
  | EmptyString => True
  | String c s => c ≠ "-"%char ∧ no_dash s
  end.

(** The entry under a key, an absent one read as the empty bucket. *)
Definition bucketAt (k : string) (m : list (string * DayInfo.t)) : DayInfo.t :=
  default (DayInfo.mk 0 0%Q) (Map_get k m).

(** The key of the day of a transaction. *)
Definition keyOf (transaction : Transaction.t) : string :=
  let date := Transaction.date transaction in
  dateKeyOf (getFullYear date) (getMonth date) (getDate date).

(** A bucket after one more transaction of amount [v]. *)
Definition addTo (b : DayInfo.t) (v : Q) : DayInfo.t :=
  DayInfo.mk (DayInfo.count b + 1) (DayInfo.amount b + v)%Q.

Section Conversion.
Variable convert : Q → string → string → result Q.
Variable currency : string.

(** The display currency, [currency || "USD"]. *)
Definition target : string :=
  if decide (currency = "") then "USD" else currency.

(** What the conversion returns for a transaction, 0 if it throws. *)
Definition converted (t : Transaction.t) : Q :=
  match convert (Transaction.amount t) (Transaction.currency t) target with
  | Ok v => v
  | Throw _ => 0%Q
  end.

(** The conversion returns for the transaction. *)
Definition converts (t : Transaction.t) : Prop :=
  ∃ v, convert (Transaction.amount t) (Transaction.currency t) target = Ok v.
End Conversion.

(** The sum of [count] over the cells of a grid. *)
Definition gridCount (g : list (list DayData)) : nat :=
  sum_list_with count (mjoin g).

(** The keys the grid reads from the date map. *)
Definition lookedUp (today : Date) (years : list Z) : list string :=
  seq 1 31 ≫= λ d, seq 0 12 ≫= λ m,
    if d <=? lastDayOfMonth (getFullYear today) m
    then (λ y, dateKeyOf y m d) <$> years
    else [].

(** The conversion between equal currencies. *)
Definition identityConversion : Q → string → string → result Q :=
  λ amount _ _, Ok amount.

(** The transaction is dated February 29. *)
Definition isFeb29 (t : Transaction.t) : bool :=
  (getMonth (Transaction.date t) =? 1) && (getDate (Transaction.date t) =? 29).

(** The day of the transaction exists in the year of [today]. *)
Definition onGrid (today : Date) (t : Transaction.t) : Prop :=
  getDate (Transaction.date t)
  ≤ lastDayOfMonth (getFullYear today) (getMonth (Transaction.date t)).

Global Instance onGrid_dec today t : Decision (onGrid today t).
Proof. unfold onGrid. apply _. Defined.

(** The 80th-percentile amount in the words of the specification: from the
    ascending list of the strictly positive amounts, the element at index
    [floor (n * 0.8)], clamped to the last index, and at least 1; 1 when no
    amount is strictly positive. *)
Definition maxAmountP80_spec (amounts : list Q) : Q :=
  let sorted := sort Qle_bool (List.filter positive amounts) in
  let n := length sorted in
  match sorted !! (percentile80Index n `min` (n - 1)) with
  | Some v => Qmax v 1
  | None => 1%Q
  end.

(** The navigation target of a chart type. *)
Definition targetPath (type : ChartType) : string :=
  match type with income => "/incomes" | expense => "/expenses" end.

(** The transaction falls on day [d] of month [m], in whatever year. *)
Definition onDay (m d : nat) (t : Transaction.t) : Prop :=
  getMonth (Transaction.date t) = m ∧ getDate (Transaction.date t) = d.

Global Instance onDay_dec m d t : Decision (onDay m d t).
Proof. unfold onDay. apply _. Defined.


(** The keys of a date map after one more transaction of key [k]. *)
Definition addKey (keys : list string) (k : string) : list string :=
  if decide (k ∈ keys) then keys else keys ++ [k].

(** ** Inputs of the examples *)

(** Scenario 1 of the specification. *)
Definition scenario1 : list Transaction.t :=
  [Transaction.mk 1 (mkDate 2023 2 5) 100 "USD";
   Transaction.mk 2 (mkDate 2024 2 5) 50 "USD"].

(** A conversion that knows one rate and throws on any other currency. *)
Definition eurOnly : Q → string → string → result Q :=
  λ amount from _,
    if decide (from = "EUR") then Ok (amount * (11 # 10))%Q
    else Throw "unknown currency".

Definition mixedCurrencies : list Transaction.t :=
  [Transaction.mk 1 (mkDate 2024 2 5) 10 "EUR";
   Transaction.mk 2 (mkDate 2024 2 6) 20 "XXX";
   Transaction.mk 3 (mkDate 2024 2 7) 30 "EUR"].

(** One transaction on the leap day of 2024. *)
Definition leapDay : list Transaction.t :=
  [Transaction.mk 1 (mkDate 2024 1 29) 10 "USD"].

(** A date map with one bucket, of amount 200. *)
Definition oneBucket : list (string * DayInfo.t) :=
  [("2024-2-5", DayInfo.mk 1 200)].

(** A date map with the buckets of one day in two years. *)
Definition bucketsByYear : list (string * DayInfo.t) :=
  [("2023-2-5", DayInfo.mk 2 100); ("2024-2-5", DayInfo.mk 1 50)].


Definition threeYears : list Transaction.t :=
  [Transaction.mk 1 (mkDate 2022 2 5) 50 "USD";
   Transaction.mk 2 (mkDate 2022 2 5) 50 "USD";
   Transaction.mk 3 (mkDate 2023 2 5) 30 "USD";
   Transaction.mk 4 (mkDate 2024 2 5) 20 "USD"].

(** The date map of [threeYears]. *)
Definition threeYearsMap : list (string * DayInfo.t) :=
  [("2022-2-5", DayInfo.mk 2 100); ("2023-2-5", DayInfo.mk 1 30);
   ("2024-2-5", DayInfo.mk 1 20)].

(** * Properties *)

(** ** The host's functions on examples *)

Example nextDay_leap : nextDay (mkDate 2024 1 28) = mkDate 2024 1 29.
Proof. reflexivity. Qed.

Example newDate_day0 : newDate 2025 2 0 = mkDate 2025 1 28.
Proof. reflexivity. Qed.

Example newDate_overflow : newDate 2025 1 30 = mkDate 2025 2 2.
Proof. reflexivity. Qed.

Example toISODate_at_utc : toISODate 0 (mkDate 2024 2 4) = "2024-03-04".
Proof. vm_compute. reflexivity. Qed.

Example toISODate_at_kathmandu : toISODate 345 (mkDate 2024 2 4) = "2024-03-03".
Proof. vm_compute. reflexivity. Qed.

Example toFixed2_round : toFixed2 (7 # 3) = "2.33".
Proof. vm_compute. reflexivity. Qed.

Example toFixed2_tie : toFixed2 (1 # 8) = "0.13".
Proof. vm_compute. reflexivity. Qed.

Example toFixed2_neg : toFixed2 (- (5 # 2)) = "-2.50".
Proof. vm_compute. reflexivity. Qed.

(** ** Calendar arithmetic of the host *)

Lemma daysInMonth_bounds y m : 28 ≤ daysInMonth y m ≤ 31.
Proof.
  unfold daysInMonth. destruct (isLeapYear y);
    do 12 (destruct m as [|m]; [lia|]); lia.
Qed.

Lemma nextDay_wf d : Date_wf d → Date_wf (nextDay d).
Proof.
  intros [Hm [Hd1 Hd2]]. unfold nextDay, Date_wf.
  destruct (Nat.ltb_spec (getDate d) (daysInMonth (getFullYear d) (getMonth d)));
    cbn [getMonth getDate getFullYear]; [lia|].
  destruct (Nat.ltb_spec (getMonth d) 11); cbn [getMonth getDate getFullYear].
  - pose proof (daysInMonth_bounds (getFullYear d) (S (getMonth d))). lia.
  - pose proof (daysInMonth_bounds (getFullYear d + 1) 0). lia.
Qed.

Lemma prevDay_wf d : Date_wf d → Date_wf (prevDay d).
Proof.
  intros [Hm [Hd1 Hd2]]. unfold prevDay, Date_wf.
  destruct (Nat.ltb_spec 1 (getDate d));
    cbn [getMonth getDate getFullYear]; [lia|].
  destruct (getMonth d) as [|m] eqn:E; cbn [getMonth getDate getFullYear].
  - pose proof (daysInMonth_bounds (getFullYear d - 1) 11).
    change (daysInMonth (getFullYear d - 1) 11) with 31. lia.
  - pose proof (daysInMonth_bounds (getFullYear d) m). lia.
Qed.

Lemma addDays_wf n d : Date_wf d → Date_wf (addDays n d).
Proof.
  intros Hd. destruct n as [|p|p]; simpl; [done|..];
    apply Pos.iter_invariant; auto using nextDay_wf, prevDay_wf.
Qed.

(** [new Date(currentYear, month + 1, 0).getDate()] is the length of the
    month in the year the constructor resolves [currentYear] to. *)
Lemma lastDayOfMonth_daysInMonth currentYear month :
  month < 12 →
  lastDayOfMonth currentYear month = daysInMonth (MakeFullYear currentYear) month.
Proof.
  intros Hm. unfold lastDayOfMonth, newDate, MakeDay.
  generalize (MakeFullYear currentYear); intros y.
  do 12 (destruct month as [|month];
         [vm_compute Z.of_nat; simpl; rewrite ?Z.add_0_r; reflexivity|]).
  lia.
Qed.

Lemma lastDayOfMonth_bounds currentYear month :
  month < 12 → 28 ≤ lastDayOfMonth currentYear month ≤ 31.
Proof.
  intros Hm. rewrite lastDayOfMonth_daysInMonth by done.
  apply daysInMonth_bounds.
Qed.

Lemma addDays_succ k d :
  addDays (Z.of_nat (S k)) d = nextDay (addDays (Z.of_nat k) d).
Proof.
  destruct k as [|k]; [done|].
  rewrite (Nat2Z.inj_succ (S k)), <- Z.add_1_r.
  change (Z.of_nat (S k)) with (Z.pos (Pos.of_succ_nat k)). simpl.
  by rewrite Pos.add_1_r, Pos.iter_succ.
Qed.

(** Counting on from the first of a month stays in the month up to its last
    day. *)
Lemma addDays_first y m k :
  k < daysInMonth y m → addDays (Z.of_nat k) (mkDate y m 1) = mkDate y m (S k).
Proof.
  induction k as [|k IH]; intros Hlt; [done|].
  rewrite addDays_succ, IH by lia. unfold nextDay; cbn [getDate getMonth getFullYear].
  destruct (Nat.ltb_spec (S k) (daysInMonth y m)); [done|lia].
Qed.

Lemma MakeDay_first y m :
  m < 12 →
  MakeDay y (Z.of_nat m) 1 = mkDate y m 1
  ∧ ∀ n, MakeDay y (Z.of_nat m) n = addDays (n - 1) (mkDate y m 1).
Proof.
  intros Hm. unfold MakeDay.
  rewrite Z.div_small, Z.mod_small, Z.add_0_r, Nat2Z.id by lia. done.
Qed.

(** On a day the month has, the constructor changes nothing. *)
Lemma MakeDay_id y m d :
  m < 12 → 1 ≤ d ≤ daysInMonth y m →
  MakeDay y (Z.of_nat m) (Z.of_nat d) = mkDate y m d.
Proof.
  intros Hm [Hd1 Hd2]. rewrite (proj2 (MakeDay_first y m Hm)).
  destruct d as [|d]; [lia|].
  replace (Z.of_nat (S d) - 1)%Z with (Z.of_nat d) by lia.
  apply addDays_first. lia.
Qed.



(** ** Date keys *)

Lemma pretty_N_go_no_dash x s : no_dash s → no_dash (pretty_N_go x s).
Proof.
  revert s. induction (N.lt_wf_0 x) as [x _ IH]; intros s Hs.
  assert (x = 0 ∨ 0 < x)%N as [->|?] by lia.
  - by rewrite pretty_N_go_0.
  - rewrite pretty_N_go_step by done. apply IH.
    { by apply N.div_lt. }
    split; [|done]. unfold pretty_N_char. by repeat case_match.
Qed.

Lemma pretty_N_go_nonempty x s : s ≠ "" → pretty_N_go x s ≠ "".
Proof.
  revert s. induction (N.lt_wf_0 x) as [x _ IH]; intros s Hs.
  assert (x = 0 ∨ 0 < x)%N as [->|?] by lia.
  - by rewrite pretty_N_go_0.
  - rewrite pretty_N_go_step by done. apply IH; [by apply N.div_lt|done].
Qed.

Lemma pretty_N_no_dash (x : N) : no_dash (pretty x).
Proof.
  unfold pretty, pretty_N. case_decide; [by compute|].
  by apply pretty_N_go_no_dash.
Qed.

Lemma pretty_N_nonempty (x : N) : pretty x ≠ "".
Proof.
  unfold pretty, pretty_N. case_decide; [done|].
  rewrite pretty_N_go_step by lia. by apply pretty_N_go_nonempty.
Qed.

Lemma pretty_nat_no_dash (x : nat) : no_dash (pretty x).
Proof. apply pretty_N_no_dash. Qed.

(** A string of digits ends at the first separator. *)
Lemma no_dash_split a a' b b' :
  no_dash a → no_dash a' →
  a +:+ String "-" b = a' +:+ String "-" b' → a = a' ∧ b = b'.
Proof.
  revert a'. induction a as [|c a IH]; intros [|c' a'] Ha Ha' Heq;
    simpl in *; simplify_eq.
  - done.
  - by destruct Ha' as [? _].
  - by destruct Ha as [? _].
  - destruct Ha as [_ Ha], Ha' as [_ Ha'].
    destruct (IH a' Ha Ha' ltac:(done)) as [-> ->]. done.
Qed.

Lemma no_dash_head a b c s :
  no_dash a → a ≠ "" → a +:+ b = String c s → c ≠ "-"%char.
Proof. destruct a as [|c' a]; [done|]. simpl. intros [? _] _ [= <- _]. done. Qed.

Lemma dateKeyOf_inj y m d y' m' d' :
  dateKeyOf y m d = dateKeyOf y' m' d' → y = y' ∧ m = m' ∧ d = d'.
Proof.
  revert y m d y' m' d'.
  assert (∀ m d m' d' : nat,
            pretty m +:+ "-" +:+ pretty d = pretty m' +:+ "-" +:+ pretty d' →
            m = m' ∧ d = d') as Hmd.
  { intros m d m' d' Heq.
    apply no_dash_split in Heq as [Hm Hd]; auto using pretty_nat_no_dash.
    by apply (inj pretty) in Hm, Hd. }
  assert (∀ (x x' : N) r r',
            pretty x +:+ "-" +:+ r = pretty x' +:+ "-" +:+ r' →
            x = x' ∧ r = r') as Hx.
  { intros x x' r r' Heq.
    apply no_dash_split in Heq as [Hx Hr]; auto using pretty_N_no_dash.
    by apply (inj pretty) in Hx. }
  intros y m d y' m' d'. unfold dateKeyOf.
  destruct y as [|p|p], y' as [|p'|p']; unfold pretty at 1 4, pretty_Z;
    unfold pretty at 1 4, pretty_positive; intros Heq.
  - change "0" with (pretty 0%N) in Heq.
    apply Hx in Heq as [_ Heq]. by apply Hmd in Heq as [-> ->].
  - change "0" with (pretty 0%N) in Heq. by apply Hx in Heq as [? _].
  - simpl in Heq. discriminate.
  - change "0" with (pretty 0%N) in Heq. by apply Hx in Heq as [? _].
  - apply Hx in Heq as [[= ->] Heq]. by apply Hmd in Heq as [-> ->].
  - simpl in Heq.
    by eapply no_dash_head in Heq;
      [|apply pretty_N_no_dash|apply pretty_N_nonempty].
  - simpl in Heq. discriminate.
  - symmetry in Heq. simpl in Heq.
    by eapply no_dash_head in Heq;
      [|apply pretty_N_no_dash|apply pretty_N_nonempty].
  - simpl in Heq. injection Heq as Heq.
    apply Hx in Heq as [[= ->] Heq]. by apply Hmd in Heq as [-> ->].
Qed.

(** ** The date map *)

Lemma Map_get_set {V : Type} k k' (v : V) m :
  Map_get k' (Map_set k v m) = if decide (k' = k) then Some v else Map_get k' m.
Proof.
  induction m as [|[k0 v0] m IH]; simpl.
  - done.
  - destruct (decide (k = k0)) as [->|Hne]; simpl.
    + by destruct (decide (k' = k0)).
    + rewrite IH. destruct (decide (k' = k0)) as [->|]; [|done].
      by rewrite decide_False.
Qed.

Section AggregationFacts.
Variable convert : Q → string → string → result Q.
Variable currency : string.

Local Abbreviation target := (target currency).
Local Abbreviation converted := (converted convert currency).
Local Abbreviation converts := (converts convert currency).

Lemma processTransaction_Ok t dm dm' :
  processTransaction convert currency t dm = Ok dm' →
  converts t ∧
  ∀ k, Map_get k dm' =
       if decide (k = keyOf t) then Some (addTo (bucketAt k dm) (converted t))
       else Map_get k dm.
Proof.
  unfold processTransaction, converts, converted. fold (keyOf t). fold target.
  destruct (convert _ _ _) as [v|e]; simpl; [|done].
  intros [= <-]. split; [by eexists|]. intros k.
  rewrite Map_get_set. destruct (decide (k = keyOf t)) as [->|Hne].
  - f_equal. unfold addTo, bucketAt, Map_has.
    destruct (Map_get (keyOf t) dm) as [b|] eqn:Hb; simpl.
    + by rewrite Hb.
    + by rewrite Map_get_set, decide_True.
  - unfold Map_has. destruct (Map_get (keyOf t) dm); [done|].
    by rewrite Map_get_set, decide_False.
Qed.

Lemma processTransaction_Throw t dm e :
  convert (Transaction.amount t) (Transaction.currency t) target = Throw e →
  processTransaction convert currency t dm = Throw e.
Proof. unfold processTransaction. fold target. by intros ->. Qed.

Lemma processTransaction_converts t dm :
  converts t → ∃ dm', processTransaction convert currency t dm = Ok dm'.
Proof.
  intros [v Hv]. unfold processTransaction. fold target. rewrite Hv.
  by eexists.
Qed.

(** The buckets after a pass that returned: each holds what it held, plus
    one count and the converted amount per transaction of its day, added in
    the order of the transactions. *)
Lemma forEach_processTransaction_Ok data dm dm' :
  forEach (processTransaction convert currency) data dm = Ok dm' →
  Forall converts data ∧
  ∀ k, bucketAt k dm' =
       foldl addTo (bucketAt k dm)
         (converted <$> filter (λ t, keyOf t = k) data).
Proof.
  revert dm. induction data as [|t data IH]; intros dm; simpl.
  - intros [= <-]. done.
  - destruct (processTransaction convert currency t dm) as [dm1|e] eqn:Ht;
      simpl; [|done].
    intros Hrest. apply processTransaction_Ok in Ht as [Hc Ht].
    apply IH in Hrest as [Hcs Hrest]. split; [by constructor|].
    intros k. rewrite Hrest. rewrite filter_cons.
    unfold bucketAt at 1. rewrite Ht.
    destruct (decide (keyOf t = k)) as [<-|Hne].
    + by rewrite decide_True.
    + by rewrite decide_False.
Qed.

Lemma forEach_processTransaction_converts data dm :
  Forall converts data →
  ∃ dm', forEach (processTransaction convert currency) data dm = Ok dm'.
Proof.
  intros Hall. revert dm. induction Hall as [|t data Ht _ IH]; intros dm; simpl.
  - by eexists.
  - destruct (processTransaction_converts t dm Ht) as [dm1 ->]. simpl. apply IH.
Qed.

Lemma forEach_processTransaction_Throw pre t post dm e :
  Forall converts pre →
  convert (Transaction.amount t) (Transaction.currency t) target = Throw e →
  forEach (processTransaction convert currency) (pre ++ t :: post) dm = Throw e.
Proof.
  intros Hall He. revert dm. induction Hall as [|t0 pre Ht0 _ IH]; intros dm; simpl.
  - by rewrite (processTransaction_Throw t dm e He).
  - destruct (processTransaction_converts t0 dm Ht0) as [dm1 ->]. simpl. apply IH.
Qed.

Lemma foldl_addTo_count b vs :
  DayInfo.count (foldl addTo b vs) = DayInfo.count b + length vs.
Proof.
  revert b. induction vs as [|v vs IH]; intros b; simpl; [lia|].
  rewrite IH. simpl. lia.
Qed.

Lemma processedData_count data dm k :
  processedData convert currency data = Ok dm →
  DayInfo.count (bucketAt k dm) = length (filter (λ t, keyOf t = k) data).
Proof.
  intros H. apply forEach_processTransaction_Ok in H as [_ H].
  rewrite H, foldl_addTo_count, length_fmap. done.
Qed.
End AggregationFacts.

(** ** Sorting and the years on display *)

Lemma insert_sorted_Permutation {A : Type} (le : A → A → bool) x l :
  insert_sorted le x l ≡ₚ x :: l.
Proof.
  induction l as [|y l IH]; simpl; [done|].
  destruct (le x y); [done|]. rewrite IH. apply Permutation_swap.
Qed.

Lemma sort_Permutation {A : Type} (le : A → A → bool) l : sort le l ≡ₚ l.
Proof.
  induction l as [|x l IH]; simpl; [done|].
  rewrite insert_sorted_Permutation. by rewrite IH.
Qed.

Lemma sort_length {A : Type} (le : A → A → bool) l : length (sort le l) = length l.
Proof. by rewrite sort_Permutation. Qed.

Lemma Set_add_NoDup y s : NoDup s → NoDup (Set_add y s).
Proof.
  intros Hs. unfold Set_add. case_decide; [done|].
  apply NoDup_app. split_and!; [done| |apply NoDup_singleton].
  intros x Hx ->%list_elem_of_singleton. done.
Qed.

Lemma elem_of_Set_add x y s : x ∈ Set_add y s ↔ x = y ∨ x ∈ s.
Proof.
  unfold Set_add. case_decide.
  - split; [by right|]. by intros [->|?].
  - rewrite elem_of_app, list_elem_of_singleton. tauto.
Qed.

Lemma years_fold_NoDup data s :
  NoDup s →
  NoDup (foldl (λ years transaction,
                  Set_add (getFullYear (Transaction.date transaction)) years)
           s data).
Proof.
  revert s. induction data as [|t data IH]; intros s Hs; simpl; [done|].
  by apply IH, Set_add_NoDup.
Qed.

Lemma elem_of_years_fold data s x :
  x ∈ foldl (λ years transaction,
               Set_add (getFullYear (Transaction.date transaction)) years)
        s data
  ↔ x ∈ s ∨ ∃ t, t ∈ data ∧ getFullYear (Transaction.date t) = x.
Proof.
  revert s. induction data as [|t data IH]; intros s; simpl.
  - split; [by left|]. intros [?|(t & Ht & _)]; [done|]. by apply elem_of_nil in Ht.
  - rewrite IH, elem_of_Set_add. split.
    + intros [[->|?]|(t' & ? & ?)]; [right|by left|right].
      * exists t. split; [left|done].
      * exists t'. split; [by right|done].
    + intros [?|(t' & [->|?]%elem_of_cons & ?)]; [by left; right|by left; left|].
      right. by exists t'.
Qed.

Lemma displayYears_NoDup data : NoDup (displayYears data).
Proof.
  unfold displayYears. rewrite sort_Permutation.
  apply years_fold_NoDup, NoDup_nil_2.
Qed.

Lemma elem_of_displayYears data t :
  t ∈ data → getFullYear (Transaction.date t) ∈ displayYears data.
Proof.
  intros Ht. unfold displayYears. rewrite sort_Permutation.
  apply elem_of_years_fold. right. by exists t.
Qed.

(** ** Sums over lists *)

Lemma sum_list_with_bind {A B : Type} (f : B → nat) (g : A → list B) l :
  sum_list_with f (l ≫= g) = sum_list_with (λ x, sum_list_with f (g x)) l.
Proof.
  induction l as [|x l IH]; [done|].
  rewrite bind_cons, sum_list_with_app, IH. done.
Qed.

Lemma sum_list_with_fmap {A B : Type} (f : B → nat) (g : A → B) l :
  sum_list_with f (g <$> l) = sum_list_with (f ∘ g) l.
Proof.
  induction l as [|x l IH]; [done|].
  rewrite fmap_cons. simpl. by rewrite IH.
Qed.

Lemma sum_list_with_ext_in {A : Type} (f g : A → nat) l :
  (∀ x, x ∈ l → f x = g x) → sum_list_with f l = sum_list_with g l.
Proof.
  induction l as [|x l IH]; intros H; simpl; [done|].
  rewrite H by left. rewrite IH; [done|]. intros y Hy. apply H. by right.
Qed.

Lemma filter_disjoint_length {A : Type} (P1 P2 : A → Prop)
    `{!∀ x, Decision (P1 x)} `{!∀ x, Decision (P2 x)} (l : list A) :
  (∀ x, P1 x → P2 x → False) →
  length (filter (λ x, P1 x ∨ P2 x) l)
  = length (filter P1 l) + length (filter P2 l).
Proof.
  intros Hdis. induction l as [|x l IH]; [done|].
  rewrite !filter_cons.
  destruct (decide (P1 x)), (decide (P2 x)); simpl.
  - by destruct (Hdis x).
  - rewrite decide_True by tauto. simpl. lia.
  - rewrite decide_True by tauto. simpl. lia.
  - rewrite decide_False by tauto. done.
Qed.

(** Counting the elements that fall on each of distinct keys counts the
    elements that fall on one of them. *)
Lemma sum_filter_keys {A : Type} (f : A → string) (keys : list string) (l : list A) :
  NoDup keys →
  sum_list_with (λ k, length (filter (λ t, f t = k) l)) keys
  = length (filter (λ t, f t ∈ keys) l).
Proof.
  induction 1 as [|k keys Hk _ IH]; simpl.
  - induction l as [|x l IHl]; [done|].
    rewrite filter_cons, decide_False; [done|]. apply not_elem_of_nil.
  - rewrite IH. rewrite <- filter_disjoint_length by (by intros x -> ?).
    f_equal. apply list_filter_iff. intros x. by rewrite elem_of_cons.
Qed.

(** ** The grid *)

Section GridFacts.
Variable today : Date.
Variable pd : list (string * DayInfo.t).
Variable years : list Z.

Local Abbreviation lookedUp := (lookedUp today years).

Lemma foldl_addYear_count month d acc :
  (foldl (addYear today pd month d) acc years).1.1
  = acc.1.1
    + sum_list_with (λ y, DayInfo.count (bucketAt (dateKeyOf y month d) pd)) years.
Proof.
  revert acc. induction years as [|y ys IH]; intros [[c a] h]; simpl; [lia|].
  rewrite IH. unfold bucketAt.
  destruct (Map_get (dateKeyOf y month d) pd); simpl; lia.
Qed.

Lemma cell_isCurrentMonth d m :
  isCurrentMonth (cell today pd years d m) = (d <=? lastDayOfMonth (getFullYear today) m).
Proof.
  unfold cell.
  destruct (d <=? lastDayOfMonth (getFullYear today) m); [|done].
  by destruct (foldl _ _ _) as [[? ?] ?].
Qed.

Lemma cell_count d m :
  count (cell today pd years d m)
  = if d <=? lastDayOfMonth (getFullYear today) m
    then sum_list_with (λ y, DayInfo.count (bucketAt (dateKeyOf y m d) pd)) years
    else 0.
Proof.
  unfold cell.
  destruct (d <=? lastDayOfMonth (getFullYear today) m); [|done].
  pose proof (foldl_addYear_count m d (0, 0%Q, false)) as H.
  destruct (foldl _ _ _) as [[c a] h]. simpl in *. done.
Qed.

Lemma cell_invalid d m :
  isCurrentMonth (cell today pd years d m) = false →
  count (cell today pd years d m) = 0
  ∧ amount (cell today pd years d m) = 0%Q
  ∧ isToday (cell today pd years d m) = false.
Proof.
  rewrite cell_isCurrentMonth. unfold cell.
  by intros ->.
Qed.

Lemma grid_lookup r c :
  r < 31 → c < 12 →
  grid (calendarData today pd years) !! r ≫= (.!! c)
  = Some (cell today pd years (1 + r) c).
Proof.
  intros Hr Hc. unfold calendarData. cbn [grid].
  rewrite list_lookup_fmap, lookup_seq_lt by done.
  cbn [fmap option_fmap option_map mbind option_bind].
  rewrite list_lookup_fmap, lookup_seq_lt by done. done.
Qed.

Lemma gridCount_lookedUp :
  gridCount (grid (calendarData today pd years))
  = sum_list_with (λ k, DayInfo.count (bucketAt k pd)) lookedUp.
Proof.
  unfold gridCount, lookedUp, calendarData. cbn [grid].
  rewrite list_join_bind, !sum_list_with_bind, sum_list_with_fmap.
  apply sum_list_with_ext_in; intros d _. unfold compose, id.
  rewrite sum_list_with_fmap, sum_list_with_bind.
  apply sum_list_with_ext_in; intros m _. unfold compose.
  rewrite cell_count.
  destruct (d <=? lastDayOfMonth (getFullYear today) m); [|done].
  by rewrite sum_list_with_fmap.
Qed.

Lemma elem_of_lookedUp k :
  k ∈ lookedUp ↔
  ∃ y m d, k = dateKeyOf y m d ∧ y ∈ years ∧ m < 12 ∧ 1 ≤ d ≤ 31
           ∧ d ≤ lastDayOfMonth (getFullYear today) m.
Proof.
  unfold lookedUp. rewrite list_elem_of_bind. split.
  - intros (d & (m & Hk & Hm%elem_of_seq)%list_elem_of_bind & Hd%elem_of_seq).
    destruct (Nat.leb_spec d (lastDayOfMonth (getFullYear today) m)) as [Hle|];
      [|by apply elem_of_nil in Hk].
    apply list_elem_of_fmap in Hk as (y & -> & Hy).
    exists y, m, d. split_and!; [done|done|lia..].
  - intros (y & m & d & -> & Hy & Hm & Hd & Hle).
    exists d. split; [|apply elem_of_seq; lia].
    apply list_elem_of_bind. exists m. split; [|apply elem_of_seq; lia].
    apply Nat.leb_le in Hle as ->.
    apply list_elem_of_fmap. by exists y.
Qed.

Lemma lookedUp_NoDup : NoDup years → NoDup lookedUp.
Proof.
  intros Hyears. unfold lookedUp. apply NoDup_bind; [| |apply NoDup_seq].
  - intros d1 d2 k _ _ (m1 & Hk1 & _)%list_elem_of_bind
      (m2 & Hk2 & _)%list_elem_of_bind.
    destruct (d1 <=? _); [|by apply elem_of_nil in Hk1].
    destruct (d2 <=? _); [|by apply elem_of_nil in Hk2].
    apply list_elem_of_fmap in Hk1 as (y1 & -> & _).
    apply list_elem_of_fmap in Hk2 as (y2 & Heq & _).
    by apply dateKeyOf_inj in Heq as (_ & _ & ?).
  - intros d _. apply NoDup_bind; [| |apply NoDup_seq].
    + intros m1 m2 k _ _ Hk1 Hk2.
      destruct (d <=? lastDayOfMonth (getFullYear today) m1);
        [|by apply elem_of_nil in Hk1].
      destruct (d <=? lastDayOfMonth (getFullYear today) m2);
        [|by apply elem_of_nil in Hk2].
      apply list_elem_of_fmap in Hk1 as (y1 & -> & _).
      apply list_elem_of_fmap in Hk2 as (y2 & Heq & _).
      by apply dateKeyOf_inj in Heq as (_ & ? & _).
    + intros m _. destruct (d <=? _); [|apply NoDup_nil_2].
      apply NoDup_fmap_2_strong; [|done].
      intros y1 y2 _ _ Heq. by apply dateKeyOf_inj in Heq as (? & _ & _).
Qed.
End GridFacts.

(** ** The total of the grid *)

Lemma filter_iff_in {A : Type} (P1 P2 : A → Prop)
    `{!∀ x, Decision (P1 x)} `{!∀ x, Decision (P2 x)} (l : list A) :
  Forall (λ x, P1 x ↔ P2 x) l → filter P1 l = filter P2 l.
Proof.
  induction 1 as [|x l Hx _ IH]; [done|].
  rewrite !filter_cons, IH.
  destruct (decide (P1 x)), (decide (P2 x)); tauto.
Qed.

Lemma pipeline_Ok convert currency today data c :
  pipeline convert currency today data = Ok c →
  ∃ dm, processedData convert currency data = Ok dm
        ∧ c = calendarData today dm (displayYears data).
Proof.
  unfold pipeline. destruct (processedData _ _ _) as [dm|e]; simpl; [|done].
  intros [= <-]. by exists dm.
Qed.

Lemma gridCount_onGrid convert currency today data c :
  pipeline convert currency today data = Ok c →
  Forall (λ t, Date_wf (Transaction.date t)) data →
  gridCount (grid c) = length (filter (onGrid today) data).
Proof.
  intros (dm & Hdm & ->)%pipeline_Ok Hwf.
  rewrite gridCount_lookedUp.
  rewrite (sum_list_with_ext_in _
             (λ k, length (filter (λ t, keyOf t = k) data)))
    by (intros k _; by eapply processedData_count).
  rewrite sum_filter_keys by apply lookedUp_NoDup, displayYears_NoDup.
  f_equal. apply filter_iff_in.
  apply Forall_forall. intros t Ht.
  rewrite Forall_forall in Hwf. destruct (Hwf t Ht) as (Hm & Hd1 & Hd2).
  rewrite elem_of_lookedUp. unfold onGrid, keyOf. split.
  - intros (y & m & d & (_ & Hm' & Hd')%dateKeyOf_inj & _ & _ & _ & Hle).
    by rewrite Hm', Hd'.
  - intros Hle. eexists _, _, _. split; [done|].
    pose proof (daysInMonth_bounds (getFullYear (Transaction.date t))
                  (getMonth (Transaction.date t))).
    split_and!; [by apply elem_of_displayYears|lia..|done].
Qed.

Lemma onGrid_Feb29 today t :
  Date_wf (Transaction.date t) →
  onGrid today t ↔
  isLeapYear (MakeFullYear (getFullYear today)) = true ∨ isFeb29 t = false.
Proof.
  intros (Hm & Hd1 & Hd2). unfold onGrid, isFeb29.
  rewrite lastDayOfMonth_daysInMonth by done.
  destruct (Transaction.date t) as [y m d]; simpl in *.
  unfold daysInMonth in *.
  destruct (isLeapYear (MakeFullYear (getFullYear today))), (isLeapYear y);
    do 12 (destruct m as [|m];
           [simpl; destruct (Nat.eqb_spec d 29); intuition lia|]); lia.
Qed.

(** C1 (as amended): the sum of [count] over the 372 cells of the built grid
    equals the number of input transactions, less the transactions dated
    February 29 when the year of [today], the reference year, is not a leap
    year: the cell of a day that the reference year lacks stays empty. *)
Theorem grid_count_total convert currency today data c :
  pipeline convert currency today data = Ok c →
  Forall (λ t, Date_wf (Transaction.date t)) data →
  length (mjoin (grid c)) = 372 ∧
  gridCount (grid c)
  + (if isLeapYear (MakeFullYear (getFullYear today)) then 0
     else length (filter isFeb29 data))
  = length data.
Proof.
  intros Hc Hwf. split.
  { apply pipeline_Ok in Hc as (dm & _ & ->). done. }
  rewrite (gridCount_onGrid _ _ _ _ _ Hc Hwf). clear Hc.
  induction Hwf as [|t data Ht _ IH]; [by destruct (isLeapYear _)|].
  rewrite !filter_cons. apply (onGrid_Feb29 today) in Ht.
  destruct (decide (onGrid today t)) as [Hon|Hoff],
    (isLeapYear (MakeFullYear (getFullYear today))) eqn:Hleap; simpl in *.
  - lia.
  - destruct Ht as [Ht _]. destruct (Ht Hon) as [?|Hf]; [done|].
    rewrite decide_False by (rewrite Hf; auto). lia.
  - destruct Hoff. apply Ht. by left.
  - destruct (isFeb29 t) eqn:Hf.
    + rewrite decide_True by done. simpl. lia.
    + destruct Hoff. apply Ht. by right.
Qed.

Lemma grid_count_total_witness :
  ∃ c, pipeline identityConversion "USD" (mkDate 2026 10 2)
         [Transaction.mk 1 (mkDate 2024 1 29) 10 "USD";
          Transaction.mk 2 (mkDate 2024 2 5) 20 "USD"] = Ok c
       ∧ gridCount (grid c) + 1 = 2.
Proof.
  eexists. split; [reflexivity|].
  refine (proj2 (grid_count_total identityConversion "USD" (mkDate 2026 10 2)
                   [Transaction.mk 1 (mkDate 2024 1 29) 10 "USD";
                    Transaction.mk 2 (mkDate 2024 2 5) 20 "USD"] _ eq_refl _)).
  repeat constructor; vm_compute; lia.
Defined.

(** C1, as stated, fails: a transaction dated 2024-02-29 is in no cell of a
    grid built in 2026. *)
Lemma grid_count_total_counterexample :
  Forall (λ t, Date_wf (Transaction.date t)) leapDay
  ∧ ∃ c, pipeline identityConversion "USD" (mkDate 2026 10 2) leapDay = Ok c
         ∧ gridCount (grid c) = 0 ∧ length leapDay = 1.
Proof.
  split.
  - repeat constructor; vm_compute; lia.
  - eexists. split; [reflexivity|]. split; vm_compute; reflexivity.
Qed.

(** C5: the built grid has 31 rows of 12 cells; the cell of row [r] and
    column [c] is invalid exactly when its day [r + 1] exceeds
    [lastDayOfMonth] of the reference year and month [c], which is the
    length of that month; an invalid cell has count 0 and amount 0, whatever
    the date map and the years hold. *)
Theorem grid_shape_validity today pd years r c :
  r < 31 → c < 12 →
  let g := grid (calendarData today pd years) in
  length g = 31 ∧ Forall (λ row, length row = 12) g ∧
  lastDayOfMonth (getFullYear today) c
  = daysInMonth (MakeFullYear (getFullYear today)) c ∧
  ∃ cellData,
    g !! r ≫= (.!! c) = Some cellData
    ∧ (isCurrentMonth cellData = false
       ↔ lastDayOfMonth (getFullYear today) c < r + 1)
    ∧ (isCurrentMonth cellData = false →
       count cellData = 0 ∧ amount cellData = 0%Q).
Proof.
  intros Hr Hc g. split_and!.
  - done.
  - unfold g, calendarData. cbn [grid]. apply Forall_fmap, Forall_forall.
    intros d _. simpl. done.
  - by apply lastDayOfMonth_daysInMonth.
  - exists (cell today pd years (1 + r) c). split_and!.
    + by apply grid_lookup.
    + rewrite cell_isCurrentMonth, Nat.leb_gt. lia.
    + intros Hinv. apply cell_invalid in Hinv as (? & ? & _). done.
Qed.

Lemma grid_shape_validity_witness :
  ∃ cellData,
    grid (calendarData (mkDate 2026 10 2)
            [("2024-1-29", DayInfo.mk 1 10)] [2024%Z]) !! 28 ≫= (.!! 1)
    = Some cellData
    ∧ isCurrentMonth cellData = false ∧ count cellData = 0.
Proof.
  destruct (grid_shape_validity (mkDate 2026 10 2)
              [("2024-1-29", DayInfo.mk 1 10)] [2024%Z] 28 1
              ltac:(lia) ltac:(lia))
    as (_ & _ & _ & cellData & Hlook & Hinv & Hzero).
  exists cellData. split; [exact Hlook|].
  assert (isCurrentMonth cellData = false) as H.
  { apply Hinv. vm_compute. lia. }
  split; [exact H|]. apply (Hzero H).
Defined.

(** ** The colour scale *)

Lemma positive_spec a : positive a = true ↔ (0 < a)%Q.
Proof.
  unfold positive. rewrite negb_true_iff, <- not_true_iff_false, Qle_bool_iff.
  split; [apply Qnot_le_lt|apply Qlt_not_le].
Qed.

Lemma positive_truthy a : positive a = true → Qeq_bool a 0 = false.
Proof.
  rewrite positive_spec. intros Ha.
  apply not_true_iff_false. rewrite Qeq_bool_iff. intros Heq.
  rewrite Heq in Ha. by apply Qlt_irrefl in Ha.
Qed.

Lemma sort_filter_positive amounts v :
  v ∈ sort Qle_bool (List.filter positive amounts) → positive v = true.
Proof.
  rewrite sort_Permutation, list_elem_of_In, filter_In. by intros [_ ?].
Qed.

Lemma percentile80Index_lt n : 0 < n → percentile80Index n < n.
Proof.
  intros Hn. unfold percentile80Index.
  apply Nat.Div0.div_lt_upper_bound. lia.
Qed.

(** The sort puts the amounts in ascending order. *)
Lemma insert_sorted_Qle x l :
  Sorted Qle l → Sorted Qle (insert_sorted Qle_bool x l).
Proof.
  induction 1 as [|y l Hl IH Hy]; simpl.
  - by repeat constructor.
  - destruct (Qle_bool x y) eqn:Hxy.
    + apply Qle_bool_iff in Hxy. by repeat constructor.
    + assert (y <= x)%Q as Hyx.
      { apply Qlt_le_weak, Qnot_le_lt. rewrite <- Qle_bool_iff. congruence. }
      constructor; [done|].
      destruct Hy as [|z l Hyz]; simpl; [by constructor|].
      destruct (Qle_bool x z); by constructor.
Qed.

Lemma sort_Qle_Sorted l : Sorted Qle (sort Qle_bool l).
Proof.
  induction l as [|x l IH]; simpl; [constructor|].
  by apply insert_sorted_Qle.
Qed.

Lemma maxAmountOf_spec bucketAmounts :
  maxAmountOf bucketAmounts = maxAmountP80_spec bucketAmounts.
Proof.
  unfold maxAmountOf, maxAmountP80_spec.
  set (sorted := sort Qle_bool (List.filter positive bucketAmounts)).
  destruct (Nat.ltb_spec 0 (length sorted)) as [Hn|Hn].
  - pose proof (percentile80Index_lt _ Hn) as Hlt.
    rewrite Nat.min_l by lia.
    destruct (lookup_lt_is_Some_2 sorted _ Hlt) as [v Hv]. rewrite Hv. simpl.
    assert (positive v = true) as Hpos.
    { apply sort_filter_positive with bucketAmounts.
      by eapply list_elem_of_lookup_2. }
    by rewrite (positive_truthy _ Hpos).
  - destruct sorted; [done|simpl in Hn; lia].
Qed.

Lemma maxAmountOf_ge_1 bucketAmounts : (1 <= maxAmountOf bucketAmounts)%Q.
Proof.
  unfold maxAmountOf. destruct (0 <? _); [apply Q.le_max_r|apply Qle_refl].
Qed.

(** C3 (as amended): [maxAmount] is [max (sorted[floor (n * 0.8)], 1)] where
    [sorted] is the ascending list of the [n] strictly positive amounts of
    the date map, one per calendar day and year, and 1 when there is none;
    the index is always within the list. *)
Theorem maxAmount_percentile80 today pd years :
  let bucketAmounts := DayInfo.amount <$> Map_values pd in
  let sorted := sort Qle_bool (List.filter positive bucketAmounts) in
  maxAmount (calendarData today pd years) = maxAmountP80_spec bucketAmounts
  ∧ Sorted Qle sorted
  ∧ sorted ≡ₚ List.filter positive bucketAmounts
  ∧ match sorted !! percentile80Index (length sorted) with
    | Some v => maxAmount (calendarData today pd years) = Qmax v 1
    | None => sorted = [] ∧ maxAmount (calendarData today pd years) = 1%Q
    end.
Proof.
  intros bucketAmounts sorted. cbn [maxAmount calendarData]. fold bucketAmounts.
  split_and!.
  - apply maxAmountOf_spec.
  - apply sort_Qle_Sorted.
  - apply sort_Permutation.
  - rewrite maxAmountOf_spec. unfold maxAmountP80_spec. fold sorted.
    destruct (decide (0 < length sorted)) as [Hn|Hn].
    + pose proof (percentile80Index_lt _ Hn) as Hlt.
      rewrite Nat.min_l by lia.
      destruct (lookup_lt_is_Some_2 sorted _ Hlt) as [v Hv]. by rewrite Hv.
    + destruct sorted; [done|simpl in Hn; lia].
Qed.

(** C3, as stated, fails: the scale is taken from the amounts of the date
    map, not from the amounts of the grid cells, which add the years up. *)
Lemma maxAmount_percentile80_counterexample :
  ∃ c, pipeline identityConversion "USD" (mkDate 2026 10 2) scenario1 = Ok c
       ∧ maxAmount c = 100%Q
       ∧ maxAmountP80_spec (amount <$> mjoin (grid c)) = 150%Q
       ∧ ¬ (maxAmount c == maxAmountP80_spec (amount <$> mjoin (grid c)))%Q.
Proof.
  eexists. split; [reflexivity|].
  split; [vm_compute; reflexivity|].
  split; [vm_compute; reflexivity|].
  vm_compute. discriminate.
Qed.

(** ** Intensity and opacity *)

Lemma maxAmount_ge_1 today pd years :
  (1 <= maxAmount (calendarData today pd years))%Q.
Proof. apply maxAmountOf_ge_1. Qed.






(** C10: with the scale of any built calendar, a cell amount [a > 0] is
    rendered as the rgba colour of the chart type with opacity
    [max (0.1, min (a / maxAmount, 1))]; the opacity is at least 0.1, and it
    is 0.1, whatever the amount, up to a tenth of [maxAmount]. *)
Theorem opacity_floor type today pd years a :
  (0 < a)%Q →
  let M := maxAmount (calendarData today pd years) in
  let opacity := Qmax (1 # 10) (Qmin (a / M) 1) in
  getColorIntensity type M a
  = rgba (baseColors type).1.1 (baseColors type).1.2 (baseColors type).2 opacity
  ∧ (1 # 10 <= opacity)%Q
  ∧ ((a <= M * (1 # 10))%Q → (opacity == 1 # 10)%Q).
Proof.
  intros Ha M opacity.
  pose proof (maxAmount_ge_1 today pd years) as HM. fold M in HM.
  split_and!.
  - unfold getColorIntensity.
    rewrite positive_truthy by by apply positive_spec.
    by destruct (baseColors type) as [[? ?] ?].
  - apply Q.le_max_l.
  - intros Hsmall. unfold opacity. apply Q.max_l.
    apply Qle_trans with (a / M)%Q; [apply Q.le_min_l|].
    apply Qle_shift_div_r; [by apply Qlt_le_trans with 1%Q|].
    by rewrite Qmult_comm.
Qed.

Lemma opacity_floor_witness :
  getColorIntensity expense
    (maxAmount (calendarData (mkDate 2026 10 2) oneBucket [2024%Z])) 5
  = rgba 239 68 68
      (Qmax (1 # 10)
         (Qmin (5 / maxAmount (calendarData (mkDate 2026 10 2) oneBucket [2024%Z]))
            1))
  ∧ (Qmax (1 # 10)
       (Qmin (5 / maxAmount (calendarData (mkDate 2026 10 2) oneBucket [2024%Z]))
          1)
     == 1 # 10)%Q.
Proof.
  destruct (opacity_floor expense (mkDate 2026 10 2) oneBucket [2024%Z] 5
              ltac:(reflexivity))
    as (Hcol & _ & Hsmall).
  split; [exact Hcol|]. apply Hsmall. vm_compute. discriminate.
Defined.

(** ** Scenario 1 *)

(** C9 (as amended): for the two transactions of 2023-03-05 (100 USD) and
    2024-03-05 (50 USD) under the identity conversion, the date map holds one
    bucket per year, ["2023-2-5"] with count 1 and amount 100 and ["2024-2-5"]
    with count 1 and amount 50, and the grid cell of day 5 of March holds
    count 2 and amount 150, in whatever year the grid is built. *)
Theorem scenario1_rollup today :
  processedData identityConversion "USD" scenario1
  = Ok [(dateKeyOf 2023 2 5, DayInfo.mk 1 100);
        (dateKeyOf 2024 2 5, DayInfo.mk 1 50)]
  ∧ ∃ c cellData,
      pipeline identityConversion "USD" today scenario1 = Ok c
      ∧ grid c !! 4 ≫= (.!! 2) = Some cellData
      ∧ monthNames c !! 2 = Some "Mar"
      ∧ isCurrentMonth cellData = true
      ∧ count cellData = 2 ∧ amount cellData = 150%Q.
Proof.
  set (dm := [(dateKeyOf 2023 2 5, DayInfo.mk 1 100);
              (dateKeyOf 2024 2 5, DayInfo.mk 1 50)]).
  assert (processedData identityConversion "USD" scenario1 = Ok dm) as Hdm
    by (vm_compute; reflexivity).
  split; [done|].
  exists (calendarData today dm (displayYears scenario1)),
    (cell today dm (displayYears scenario1) (1 + 4) 2).
  split; [unfold pipeline; by rewrite Hdm|].
  split; [apply grid_lookup; lia|].
  split; [reflexivity|].
  assert ((1 + 4 <=? lastDayOfMonth (getFullYear today) 2) = true) as Hvalid.
  { apply Nat.leb_le. pose proof (lastDayOfMonth_bounds (getFullYear today) 2). lia. }
  split; [by rewrite cell_isCurrentMonth|].
  unfold cell. rewrite Hvalid.
  change (displayYears scenario1) with [2023%Z; 2024%Z].
  cbn [foldl]. unfold addYear.
  change (Map_get (dateKeyOf 2023 2 (1 + 4)) _) with (Some (DayInfo.mk 1 100)).
  change (Map_get (dateKeyOf 2024 2 (1 + 4)) _) with (Some (DayInfo.mk 1 50)).
  cbn [DayInfo.count DayInfo.amount count amount]. split; reflexivity.
Qed.

(** C9, as stated, fails: no bucket of the date map holds count 2; at month
    2 and day 5 there is one bucket per year. *)
Lemma scenario1_rollup_counterexample :
  ∃ dm, processedData identityConversion "USD" scenario1 = Ok dm
        ∧ ∀ k, DayInfo.count (bucketAt k dm) ≠ 2.
Proof.
  eexists. split; [vm_compute; reflexivity|].
  intros k. unfold bucketAt. simpl.
  repeat (case_decide; simpl; [lia|]). done.
Qed.

(** ** The click handler *)

Lemma handleCellClick_ignored type tz cellData :
  isCurrentMonth cellData = false ∨ count cellData = 0 →
  handleCellClick type tz cellData = None.
Proof.
  unfold handleCellClick. intros [->| ->]; [done|].
  by rewrite orb_true_r.
Qed.







Example handleCellClick_scenario3_utc :
  handleCellClick expense 0 (mkDayData (mkDate 2024 2 5) 3 120 true false)
  = Some "/expenses?startDate=2024-03-04&endDate=2024-03-06".
Proof. vm_compute. reflexivity. Qed.

Example handleCellClick_scenario4 :
  handleCellClick expense 0 (mkDayData (mkDate 2024 2 1) 0 0 false false) = None.
Proof. reflexivity. Qed.

(** C6: in a zone ahead of UTC, here UTC+05:45, the click of scenario 3, on
    the valid cell of 2024-03-05 with count 3 in the expense chart, asks for
    2024-03-03 to 2024-03-05, not for 2024-03-04 to 2024-03-06: the dates are
    built in local time and written in UTC. *)
Theorem handleCellClick_ahead_of_UTC :
  handleCellClick expense 345 (mkDayData (mkDate 2024 2 5) 3 120 true false)
  = Some "/expenses?startDate=2024-03-03&endDate=2024-03-05".
Proof. vm_compute. reflexivity. Qed.

(** ** The CSV table *)

Lemma join_lookup_uniform {A : Type} (n : nat) (ls : list (list A)) r c :
  Forall (λ l, length l = n) ls → c < n →
  mjoin ls !! (r * n + c) = ls !! r ≫= (.!! c).
Proof.
  intros Hls Hc. revert r. induction Hls as [|l ls Hl _ IH]; intros r.
  - by rewrite join_nil_2.
  - change (mjoin (l :: ls)) with (l ++ mjoin ls)%list. destruct r as [|r]; simpl.
    + by rewrite lookup_app_l by lia.
    + rewrite lookup_app_r by lia.
      replace (n + r * n + c - length l) with (r * n + c) by lia. apply IH.
Qed.





(** ** Conversion failures *)

(** C2 (as amended): when the conversion returns for every transaction the
    pass completes, and each bucket holds one count and the converted amount
    for every transaction of its day; when the conversion throws on a
    transaction, the pass does not complete: it throws what the conversion
    threw on the first such transaction, and returns no date map. *)
Theorem processedData_conversion convert currency data :
  (Forall (converts convert currency) data →
   ∃ dm, processedData convert currency data = Ok dm
         ∧ ∀ k, bucketAt k dm
                = foldl addTo (DayInfo.mk 0 0)
                    (converted convert currency
                       <$> filter (λ t, keyOf t = k) data))
  ∧ (∀ pre t post e,
       data = (pre ++ t :: post)%list →
       Forall (converts convert currency) pre →
       convert (Transaction.amount t) (Transaction.currency t) (target currency)
       = Throw e →
       processedData convert currency data = Throw e).
Proof.
  split.
  - intros Hall.
    destruct (forEach_processTransaction_converts convert currency data [] Hall)
      as [dm Hdm].
    exists dm. split; [done|].
    by apply forEach_processTransaction_Ok in Hdm as [_ Hdm].
  - intros pre t post e -> Hpre He.
    by apply forEach_processTransaction_Throw.
Qed.

Lemma processedData_conversion_witness :
  processedData eurOnly "USD" mixedCurrencies = Throw "unknown currency"
  ∧ ∃ dm, processedData identityConversion "USD" mixedCurrencies = Ok dm
          ∧ bucketAt (dateKeyOf 2024 2 6) dm = DayInfo.mk 1 20.
Proof.
  split.
  - apply (proj2 (processedData_conversion eurOnly "USD" mixedCurrencies)
             [Transaction.mk 1 (mkDate 2024 2 5) 10 "EUR"]
             (Transaction.mk 2 (mkDate 2024 2 6) 20 "XXX")
             [Transaction.mk 3 (mkDate 2024 2 7) 30 "EUR"]).
    + reflexivity.
    + repeat constructor. by eexists.
    + reflexivity.
  - destruct (proj1 (processedData_conversion identityConversion "USD"
                       mixedCurrencies)) as (dm & Hdm & Hb).
    + repeat constructor; by eexists.
    + exists dm. split; [exact Hdm|]. rewrite Hb. vm_compute. reflexivity.
Defined.

(** C2, as stated, fails: with a conversion that throws on the second of
    three transactions the pass returns no date map. *)
Lemma processedData_conversion_counterexample :
  converts eurOnly "USD" (Transaction.mk 1 (mkDate 2024 2 5) 10 "EUR")
  ∧ converts eurOnly "USD" (Transaction.mk 3 (mkDate 2024 2 7) 30 "EUR")
  ∧ processedData eurOnly "USD" mixedCurrencies = Throw "unknown currency"
  ∧ ¬ ∃ dm, processedData eurOnly "USD" mixedCurrencies = Ok dm.
Proof.
  split_and!; [by eexists|by eexists|reflexivity|].
  intros [dm Hdm]. vm_compute in Hdm. discriminate.
Qed.

(** ** The exports *)

Lemma Qmin_cases a b : Qmin a b = a ∨ Qmin a b = b.
Proof.
  unfold Qmin, GenericMinMax.gmin. destruct (a ?= b)%Q; auto.
Qed.

Lemma foldl_Qmin_elem x l : foldl Qmin x l ∈ x :: l.
Proof.
  revert x. induction l as [|y l IH]; intros x; simpl; [left|].
  specialize (IH (Qmin x y)).
  apply elem_of_cons in IH as [->|IH].
  - destruct (Qmin_cases x y) as [-> | ->]; [left|right; left].
  - by do 2 right.
Qed.



Lemma maxScaleAmount_maxAmountOf pd :
  maxScaleAmount pd
  = if 0 <? length (allAmounts pd)
    then maxAmountOf (DayInfo.amount <$> Map_values pd) else 0%Q.
Proof.
  unfold maxScaleAmount, maxAmountOf. fold (allAmounts pd).
  rewrite sort_length. by destruct (0 <? length (allAmounts pd)).
Qed.


Section ExportFacts.
Variable Number_toString Number_toLocaleString : Q → string.
Variable type : ChartType.
Variable currency : string.
Variable title : option string.
Variable timePeriodText : string.

End ExportFacts.




(** * Further properties *)

(** ** What a cell adds up *)

Lemma keys_of_years_NoDup (years : list Z) m d :
  NoDup years → NoDup ((λ y, dateKeyOf y m d) <$> years).
Proof.
  intros Hy. apply NoDup_fmap_2_strong; [|done].
  intros y1 y2 _ _ Heq. by apply dateKeyOf_inj in Heq as (? & _ & _).
Qed.

Lemma keyOf_years_onDay data m d :
  Forall (λ t, keyOf t ∈ (λ y, dateKeyOf y m d) <$> displayYears data
               ↔ onDay m d t) data.
Proof.
  apply Forall_forall. intros t Ht. unfold onDay, keyOf.
  rewrite list_elem_of_fmap. split.
  - by intros (y & (_ & ? & ?)%dateKeyOf_inj & _).
  - intros [<- <-]. eexists. split; [done|]. by apply elem_of_displayYears.
Qed.

(** The count of a cell of a valid day is the number of transactions of that
    day and month, of any year. *)
Lemma cell_count_onDay convert currency today data dm d m :
  processedData convert currency data = Ok dm →
  count (cell today dm (displayYears data) d m)
  = if d <=? lastDayOfMonth (getFullYear today) m
    then length (filter (onDay m d) data) else 0.
Proof.
  intros Hdm. rewrite cell_count.
  destruct (d <=? lastDayOfMonth (getFullYear today) m); [|done].
  rewrite (sum_list_with_ext_in _
             (λ y, length (filter (λ t, keyOf t = dateKeyOf y m d) data)))
    by (intros y _; by eapply processedData_count).
  transitivity
    (sum_list_with (λ k, length (filter (λ t, keyOf t = k) data))
       ((λ y, dateKeyOf y m d) <$> displayYears data)).
  { by rewrite sum_list_with_fmap. }
  rewrite sum_filter_keys by apply keys_of_years_NoDup, displayYears_NoDup.
  f_equal. apply filter_iff_in, keyOf_years_onDay.
Qed.









Lemma threeYears_pipeline today :
  processedData identityConversion "USD" threeYears = Ok threeYearsMap
  ∧ pipeline identityConversion "USD" today threeYears
    = Ok (calendarData today threeYearsMap [2022%Z; 2023%Z; 2024%Z]).
Proof.
  assert (processedData identityConversion "USD" threeYears = Ok threeYearsMap)
    as Hdm by (vm_compute; reflexivity).
  split; [done|]. unfold pipeline. rewrite Hdm.
  assert (displayYears threeYears = [2022%Z; 2023%Z; 2024%Z]) as ->
    by (vm_compute; reflexivity).
  done.
Qed.



(** ** The mark of today *)

Lemma foldl_addYear_isToday today pd years m d acc :
  (foldl (addYear today pd m d) acc years).2 = true
  ↔ acc.2 = true ∨ ∃ y, y ∈ years ∧ newDate y m d = today.
Proof.
  revert acc. induction years as [|y ys IH]; intros [[c a] h].
  - cbn [foldl snd]. split; [by left|].
    intros [?|(y & Hy & _)]; [done|]. by apply elem_of_nil in Hy.
  - cbn [foldl]. rewrite IH. unfold addYear.
    destruct (Map_get _ _); cbn [snd];
      (destruct (decide (newDate y m d = today)) as [Heq|Hne]; split;
       [intros _; right; exists y; split; [left|done]
       |by left
       |intros [?|(y' & Hy' & ?)]; [by left|right; exists y'; split; [by right|done]]
       |intros [?|(y' & [->|?]%elem_of_cons & ?)];
          [by left|done|right; by exists y']]).
Qed.

Lemma cell_isToday today pd years d m :
  isToday (cell today pd years d m) = true
  ↔ d ≤ lastDayOfMonth (getFullYear today) m
    ∧ ∃ y, y ∈ years ∧ newDate y m d = today.
Proof.
  unfold cell.
  destruct (Nat.leb_spec d (lastDayOfMonth (getFullYear today) m)) as [Hle|Hgt].
  - pose proof (foldl_addYear_isToday today pd years m d (0, 0%Q, false)) as H.
    destruct (foldl _ _ _) as [[c a] h]. cbn [isToday snd] in *.
    rewrite H. split; [intros [?|?]; [done|by split]|intros [_ ?]; by right].
  - cbn [isToday]. split; [done|]. intros [? _]. lia.
Qed.

(** A day and month that some year has, asked of the year [y]: the date is
    in [y], on that day, or on March 1 when it is a February 29 that [y]
    lacks. *)
Lemma newDate_cases Y y m d :
  m < 12 → 1 ≤ d ≤ daysInMonth Y m →
  newDate y m d = mkDate (MakeFullYear y) m d
  ∨ (m = 1 ∧ d = 29 ∧ isLeapYear (MakeFullYear y) = false
     ∧ newDate y m d = mkDate (MakeFullYear y) 2 1).
Proof.
  intros Hm [Hd1 Hd2]. unfold newDate.
  destruct (decide (d ≤ daysInMonth (MakeFullYear y) m)) as [Hle|Hgt].
  - left. by apply MakeDay_id.
  - right.
    assert (m = 1 ∧ d = 29 ∧ isLeapYear (MakeFullYear y) = false) as (-> & -> & Hleap).
    { unfold daysInMonth in *.
      destruct (isLeapYear Y), (isLeapYear (MakeFullYear y));
        do 12 (destruct m as [|m]; [lia|]); lia. }
    split_and!; [done..|].
    rewrite (proj2 (MakeDay_first _ 1 ltac:(lia))).
    change (Z.of_nat 29 - 1)%Z with (Z.of_nat 28).
    rewrite addDays_succ, addDays_first
      by (unfold daysInMonth; rewrite Hleap; lia).
    unfold nextDay, daysInMonth. cbn [getDate getMonth getFullYear].
    by rewrite Hleap.
Qed.

Lemma elem_of_displayYears_iff data y :
  y ∈ displayYears data
  ↔ ∃ t, t ∈ data ∧ getFullYear (Transaction.date t) = y.
Proof.
  unfold displayYears. rewrite sort_Permutation, elem_of_years_fold.
  split; [|by right]. intros [Hy|?]; [|done]. by apply elem_of_nil in Hy.
Qed.

(** X2: in the grid built from the transactions, a cell carries the mark of
    today exactly when it is the cell of today's day and month and some
    transaction is dated in today's year; without a transaction of the
    current year no cell is marked.  ([new Date] reads a year in 0..99 as
    1900 + year, so the year of today is taken outside that range.) *)
Theorem isToday_cell convert currency today data c r col :
  pipeline convert currency today data = Ok c → r < 31 → col < 12 →
  Date_wf today → MakeFullYear (getFullYear today) = getFullYear today →
  ∃ cellData,
    grid c !! r ≫= (.!! col) = Some cellData
    ∧ (isToday cellData = true
       ↔ col = getMonth today ∧ 1 + r = getDate today
         ∧ ∃ t, t ∈ data
                ∧ MakeFullYear (getFullYear (Transaction.date t))
                  = getFullYear today).
Proof.
  intros (dm & Hdm & ->)%pipeline_Ok Hr Hc (Hm & Hd1 & Hd2) Hfull.
  exists (cell today dm (displayYears data) (1 + r) col).
  split; [by apply grid_lookup|].
  rewrite cell_isToday, lastDayOfMonth_daysInMonth, Hfull by done. split.
  - intros (Hle & y & (t & Ht & <-)%elem_of_displayYears_iff & Hnew).
    destruct (newDate_cases (getFullYear today)
                (getFullYear (Transaction.date t)) col (1 + r))
      as [Heq|(-> & Hr29 & Hleap & Heq)]; [done|lia|..].
    + rewrite Heq in Hnew. subst today. cbn [getMonth getDate getFullYear].
      split_and!; [done..|]. by exists t.
    + rewrite Heq in Hnew. subst today.
      cbn [getFullYear] in Hle. rewrite Hr29 in Hle.
      unfold daysInMonth in Hle. rewrite Hleap in Hle. lia.
  - intros (-> & Hr' & t & Ht & Hy). rewrite Hr'. split; [done|].
    exists (getFullYear (Transaction.date t)).
    split; [by apply elem_of_displayYears|].
    unfold newDate. rewrite Hy, MakeDay_id by done. by destruct today.
Qed.

Lemma isToday_cell_witness :
  ∃ cellData,
    grid (calendarData (mkDate 2024 2 5)
            threeYearsMap [2022%Z; 2023%Z; 2024%Z]) !! 4 ≫= (.!! 2) = Some cellData
    ∧ isToday cellData = true.
Proof.
  destruct (isToday_cell identityConversion "USD" (mkDate 2024 2 5) threeYears
              _ 4 2 (proj2 (threeYears_pipeline _)) ltac:(lia) ltac:(lia))
    as (cellData & Hlook & Htoday).
  - unfold Date_wf. vm_compute. lia.
  - reflexivity.
  - exists cellData. split; [exact Hlook|]. apply Htoday.
    split_and!; [reflexivity..|].
    exists (Transaction.mk 4 (mkDate 2024 2 5) 20 "USD").
    split; [|reflexivity]. do 3 right. left.
Defined.

(** ** The keys and the total of the date map *)

Lemma Map_get_None {V : Type} k (m : list (string * V)) :
  Map_get k m = None ↔ k ∉ m.*1.
Proof.
  induction m as [|[k0 v0] m IH]; simpl.
  - split; [intros _; apply not_elem_of_nil|done].
  - rewrite not_elem_of_cons. destruct (decide (k = k0)); [|tauto].
    split; [done|]. by intros [? _].
Qed.

Lemma Map_has_elem_of {V : Type} k (m : list (string * V)) :
  Map_has k m = true ↔ k ∈ m.*1.
Proof.
  unfold Map_has. pose proof (Map_get_None k m) as H.
  destruct (Map_get k m).
  - split; [|done]. intros _. destruct (decide (k ∈ m.*1)); [done|].
    by apply H in n.
  - split; [done|]. intros Hin. by apply H in Hin.
Qed.

Lemma Map_set_keys {V : Type} k (v : V) m : (Map_set k v m).*1 = addKey m.*1 k.
Proof.
  induction m as [|[k0 v0] m IH].
  - unfold addKey. change ((Map_set k v []).*1) with [k].
    change (([] : list (string * V)).*1) with (@nil string).
    destruct (decide (k ∈ @nil string)) as [H|_]; [by apply elem_of_nil in H|done].
  - change (((k0, v0) :: m).*1) with (k0 :: m.*1).
    cbn [Map_set]. destruct (decide (k = k0)) as [->|Hne].
    + change (((k0, v) :: m).*1) with (k0 :: m.*1).
      unfold addKey. destruct (decide (k0 ∈ k0 :: m.*1)) as [_|H]; [done|].
      destruct H. left.
    + change (((k0, v0) :: Map_set k v m).*1) with (k0 :: (Map_set k v m).*1).
      rewrite IH. unfold addKey.
      destruct (decide (k ∈ m.*1)) as [Hin|Hnin],
        (decide (k ∈ k0 :: m.*1)) as [Hin'|Hnin']; try done.
      * destruct Hnin'. by right.
      * apply elem_of_cons in Hin' as [?|?]; done.
Qed.

Lemma addKey_idemp keys k : addKey (addKey keys k) k = addKey keys k.
Proof.
  unfold addKey. destruct (decide (k ∈ keys)) as [Hin|Hnin].
  - by rewrite decide_True.
  - rewrite decide_True; [done|]. apply elem_of_app. right. left.
Qed.

Lemma addKey_NoDup keys k : NoDup keys → NoDup (addKey keys k).
Proof.
  intros Hk. unfold addKey. case_decide; [done|].
  apply NoDup_app. split_and!; [done| |apply NoDup_singleton].
  intros x Hx ->%list_elem_of_singleton. done.
Qed.

Lemma elem_of_addKey keys k x : x ∈ addKey keys k ↔ x ∈ keys ∨ x = k.
Proof.
  unfold addKey. case_decide.
  - split; [by left|]. by intros [?| ->].
  - by rewrite elem_of_app, list_elem_of_singleton.
Qed.

Lemma foldl_addKey_NoDup keys ks : NoDup keys → NoDup (foldl addKey keys ks).
Proof.
  revert keys. induction ks as [|k ks IH]; intros keys Hk; simpl; [done|].
  by apply IH, addKey_NoDup.
Qed.

Lemma elem_of_foldl_addKey keys ks x :
  x ∈ foldl addKey keys ks ↔ x ∈ keys ∨ x ∈ ks.
Proof.
  revert keys. induction ks as [|k ks IH]; intros keys; simpl.
  - split; [by left|]. intros [?|H]; [done|]. by apply elem_of_nil in H.
  - rewrite IH, elem_of_addKey, elem_of_cons. tauto.
Qed.

Lemma processTransaction_keys convert currency t dm dm' :
  processTransaction convert currency t dm = Ok dm' →
  dm'.*1 = addKey dm.*1 (keyOf t).
Proof.
  unfold processTransaction. fold (keyOf t).
  destruct (convert _ _ _) as [v|e]; simpl; [|done]. intros [= <-].
  rewrite Map_set_keys.
  destruct (Map_has (keyOf t) dm) eqn:Hhas.
  - apply Map_has_elem_of in Hhas. unfold addKey. by rewrite decide_True.
  - by rewrite Map_set_keys, addKey_idemp.
Qed.

Lemma forEach_processTransaction_keys convert currency data dm dm' :
  forEach (processTransaction convert currency) data dm = Ok dm' →
  dm'.*1 = foldl addKey dm.*1 (keyOf <$> data).
Proof.
  revert dm. induction data as [|t data IH]; intros dm; simpl.
  - by intros [= <-].
  - destruct (processTransaction convert currency t dm) as [dm1|e] eqn:Ht;
      simpl; [|done].
    intros Hrest. apply IH in Hrest as ->.
    by rewrite (processTransaction_keys _ _ _ _ _ Ht).
Qed.

Lemma bucketAt_values (m : list (string * DayInfo.t)) :
  NoDup m.*1 →
  sum_list_with DayInfo.count m.*2
  = sum_list_with (λ k, DayInfo.count (bucketAt k m)) m.*1.
Proof.
  induction m as [|[k0 v0] m IH]; [done|].
  rewrite !fmap_cons. cbn [fst snd sum_list_with].
  intros [Hk0 Hm]%NoDup_cons. rewrite IH by done. f_equal.
  - unfold bucketAt. simpl. by rewrite decide_True.
  - apply sum_list_with_ext_in. intros k Hk. unfold bucketAt. simpl.
    rewrite decide_False; [done|]. by intros ->.
Qed.

Lemma totalTransactions_sum pd :
  totalTransactions pd = sum_list_with DayInfo.count pd.*2.
Proof.
  unfold totalTransactions, Map_values.
  assert (∀ l n, foldl (λ sum d, sum + DayInfo.count d) n l
                 = n + sum_list_with DayInfo.count l) as H.
  { induction l as [|x l IH]; intros n; simpl; [lia|]. rewrite IH. lia. }
  by rewrite H.
Qed.

Lemma filter_all {A : Type} (P : A → Prop) `{!∀ x, Decision (P x)} (l : list A) :
  Forall P l → filter P l = l.
Proof.
  induction 1 as [|x l Hx _ IH]; [done|].
  by rewrite filter_cons, decide_True, IH.
Qed.

Lemma processedData_total convert currency data dm :
  processedData convert currency data = Ok dm →
  NoDup dm.*1
  ∧ (∀ k, k ∈ dm.*1 ↔ ∃ t, t ∈ data ∧ keyOf t = k)
  ∧ totalTransactions dm = length data.
Proof.
  intros Hdm.
  pose proof (forEach_processTransaction_keys _ _ _ _ _ Hdm) as Hkeys.
  cbn [fmap list_fmap] in Hkeys.
  assert (NoDup dm.*1) as Hnd.
  { rewrite Hkeys. apply foldl_addKey_NoDup, NoDup_nil_2. }
  assert (∀ k, k ∈ dm.*1 ↔ ∃ t, t ∈ data ∧ keyOf t = k) as Hin.
  { intros k. rewrite Hkeys, elem_of_foldl_addKey, list_elem_of_fmap. split.
    - intros [H|(t & -> & Ht)]; [by apply elem_of_nil in H|by exists t].
    - intros (t & Ht & <-). right. by exists t. }
  split_and!; [done..|].
  rewrite totalTransactions_sum, bucketAt_values by done.
  rewrite (sum_list_with_ext_in _
             (λ k, length (filter (λ t, keyOf t = k) data)))
    by (intros k _; by eapply processedData_count).
  rewrite sum_filter_keys by done. f_equal. apply filter_all.
  apply Forall_forall. intros t Ht. apply Hin. by exists t.
Qed.

Lemma foldl_addKey_length keys ks :
  length (foldl addKey keys ks) ≤ length keys + length ks.
Proof.
  revert keys. induction ks as [|k ks IH]; intros keys; simpl; [lia|].
  etrans; [apply IH|]. unfold addKey. case_decide; [lia|].
  rewrite length_app. simpl. lia.
Qed.

(** X3: the date map of a completed pass has one entry per distinct day of
    the transactions, in the order in which the days first occur; no key is
    repeated, every entry counts at least one transaction, and there are no
    more entries than transactions. *)
Theorem dateMap_keys convert currency data dm :
  processedData convert currency data = Ok dm →
  dm.*1 = foldl addKey [] (keyOf <$> data)
  ∧ NoDup dm.*1
  ∧ (∀ k, k ∈ dm.*1 ↔ ∃ t, t ∈ data ∧ keyOf t = k)
  ∧ (∀ k b, Map_get k dm = Some b →
            DayInfo.count b = length (filter (λ t, keyOf t = k) data)
            ∧ 1 ≤ DayInfo.count b)
  ∧ length dm ≤ length data.
Proof.
  intros Hdm.
  pose proof (forEach_processTransaction_keys _ _ _ _ _ Hdm) as Hkeys.
  destruct (processedData_total _ _ _ _ Hdm) as (Hnd & Hin & _).
  split_and!; [done..| |].
  - intros k b Hb.
    assert (b = bucketAt k dm) as -> by (unfold bucketAt; by rewrite Hb).
    rewrite (processedData_count _ _ _ _ k Hdm). split; [done|].
    assert (k ∈ dm.*1) as (t & Ht & Hk)%Hin.
    { destruct (decide (k ∈ dm.*1)) as [|Hn]; [done|].
      apply Map_get_None in Hn. congruence. }
    assert (t ∈ filter (λ t, keyOf t = k) data) as Hf
      by by apply list_elem_of_filter.
    destruct (filter _ data); [by apply elem_of_nil in Hf|simpl; lia].
  - rewrite <- (length_fmap fst dm), Hkeys.
    etrans; [apply foldl_addKey_length|]. rewrite length_fmap.
    rewrite length_fmap. simpl. lia.
Qed.

Lemma dateMap_keys_witness :
  threeYearsMap.*1 = foldl addKey [] (keyOf <$> threeYears)
  ∧ NoDup threeYearsMap.*1.
Proof.
  destruct (dateMap_keys identityConversion "USD" threeYears threeYearsMap
              (proj1 (threeYears_pipeline (mkDate 2026 10 2))))
    as (Hkeys & Hnd & _).
  split; [exact Hkeys|exact Hnd].
Defined.

Lemma gridCount_filter convert currency today data c :
  pipeline convert currency today data = Ok c →
  gridCount (grid c)
  = length (filter (λ t, keyOf t ∈ lookedUp today (displayYears data)) data).
Proof.
  intros (dm & Hdm & ->)%pipeline_Ok.
  rewrite gridCount_lookedUp.
  rewrite (sum_list_with_ext_in _
             (λ k, length (filter (λ t, keyOf t = k) data)))
    by (intros k _; by eapply processedData_count).
  by rewrite sum_filter_keys by apply lookedUp_NoDup, displayYears_NoDup.
Qed.

Lemma append_nil_r s : s +:+ "" = s.
Proof.
  induction s as [|a s IH]; [done|].
  change (String a (s +:+ "") = String a s). by rewrite IH.
Qed.

(** X4: when no title is passed, the chart title counts every input
    transaction: the total of the date map is the number of transactions,
    written with "transaction" for one and "transactions" otherwise, and
    left out when there is none; the total of the grid is never larger. *)
Theorem chartTitle_total convert currency today type timePeriodText data c :
  pipeline convert currency today data = Ok c →
  ∃ dm,
    processedData convert currency data = Ok dm
    ∧ totalTransactions dm = length data
    ∧ gridCount (grid c) ≤ totalTransactions dm
    ∧ chartTitle type None timePeriodText dm
      = typeName type +:+ " Transaction Frequency - " +:+ timePeriodText
          +:+ match length data with
              | 0 => ""
              | 1 => " • 1 transaction"
              | n => " • " +:+ pretty n +:+ " transactions"
              end.
Proof.
  intros Hc. destruct (pipeline_Ok _ _ _ _ _ Hc) as (dm & Hdm & _).
  destruct (processedData_total _ _ _ _ Hdm) as (_ & _ & Htotal).
  exists dm. split_and!; [done..| |].
  - rewrite Htotal, (gridCount_filter _ _ _ _ _ Hc). apply length_filter.
  - unfold chartTitle. rewrite Htotal.
    destruct (length data) as [|[|n]]; cbn [Nat.ltb Nat.leb Nat.eqb].
    + by rewrite append_nil_r.
    + reflexivity.
    + reflexivity.
Qed.

Lemma chartTitle_total_witness :
  ∃ dm, processedData identityConversion "USD" threeYears = Ok dm
        ∧ totalTransactions dm = 4
        ∧ chartTitle expense None "All Time" dm
          = "Expense Transaction Frequency - All Time • 4 transactions".
Proof.
  destruct (chartTitle_total identityConversion "USD" (mkDate 2026 10 2)
              expense "All Time" threeYears _
              (proj2 (threeYears_pipeline _)))
    as (dm & Hdm & Htotal & _ & Htitle).
  exists dm. split; [exact Hdm|]. split; [exact Htotal|].
  rewrite Htitle. vm_compute. reflexivity.
Defined.

(** ** The cells of a grid, all at once *)

Lemma elem_of_grid today pd years x :
  x ∈ mjoin (grid (calendarData today pd years))
  ↔ ∃ d m, 1 ≤ d ≤ 31 ∧ m < 12 ∧ x = cell today pd years d m.
Proof.
  unfold calendarData. cbn [grid]. rewrite list_elem_of_join. split.
  - intros (row & Hx & (d & -> & Hd%elem_of_seq)%list_elem_of_fmap).
    apply list_elem_of_fmap in Hx as (m & -> & Hm%elem_of_seq).
    exists d, m. split_and!; [lia..|done].
  - intros (d & m & Hd & Hm & ->).
    exists (cell today pd years d <$> seq 0 12). split.
    + apply list_elem_of_fmap. exists m. split; [done|]. apply elem_of_seq. lia.
    + apply list_elem_of_fmap. exists d. split; [done|]. apply elem_of_seq. lia.
Qed.

Lemma length_filter_sum {A : Type} (P : A → Prop) `{!∀ x, Decision (P x)}
    (l : list A) :
  length (filter P l) = sum_list_with (λ x, if decide (P x) then 1 else 0) l.
Proof.
  induction l as [|x l IH]; [done|].
  rewrite filter_cons. simpl. destruct (decide (P x)); simpl; by rewrite IH.
Qed.

(** X5: with no transaction the pass returns the empty date map, the scale
    is 1, and every cell of the grid is empty: count 0, amount 0, no mark of
    today, drawn transparent, and a click on it goes nowhere; the legend
    shows 0 and 0. *)
Theorem empty_data convert currency today type tz :
  ∃ c,
    pipeline convert currency today [] = Ok c
    ∧ maxAmount c = 1%Q ∧ maxCount c = 1
    ∧ length (mjoin (grid c)) = 372
    ∧ Forall (λ x, count x = 0 ∧ amount x = 0%Q ∧ isToday x = false
                   ∧ getColorIntensity type (maxAmount c) (amount x) = transparent
                   ∧ handleCellClick type tz x = None)
        (mjoin (grid c))
    ∧ totalTransactions [] = 0
    ∧ minAmount [] = 0%Q ∧ maxScaleAmount [] = 0%Q.
Proof.
  exists (calendarData today [] []). split_and!; try done.
  apply Forall_forall. intros x (d & m & _ & _ & ->)%elem_of_grid.
  assert (count (cell today [] [] d m) = 0 ∧ amount (cell today [] [] d m) = 0%Q
          ∧ isToday (cell today [] [] d m) = false) as (Hc & Ha & Ht).
  { unfold cell. by destruct (d <=? _). }
  rewrite Ha. split_and!; [done..|].
  apply handleCellClick_ignored. by right.
Qed.

(** X6: the valid cells of a grid are as many as the days of the reference
    year: 366 when it is a leap year, 365 otherwise. *)
Theorem valid_cells_year today pd years :
  length (filter (λ x, isCurrentMonth x = true)
            (mjoin (grid (calendarData today pd years))))
  = if isLeapYear (MakeFullYear (getFullYear today)) then 366 else 365.
Proof.
  rewrite length_filter_sum. unfold calendarData. cbn [grid].
  rewrite list_join_bind, sum_list_with_bind, sum_list_with_fmap.
  transitivity
    (sum_list_with
       (λ d, sum_list_with
               (λ m, if d <=? daysInMonth (MakeFullYear (getFullYear today)) m
                     then 1 else 0) (seq 0 12))
       (seq 1 31)).
  - apply sum_list_with_ext_in; intros d _. unfold compose, id.
    rewrite sum_list_with_fmap.
    apply sum_list_with_ext_in; intros m Hm%elem_of_seq. unfold compose.
    rewrite cell_isCurrentMonth, lastDayOfMonth_daysInMonth by lia.
    by destruct (d <=? _).
  - unfold daysInMonth.
    destruct (isLeapYear (MakeFullYear (getFullYear today)));
      vm_compute; reflexivity.
Qed.

(** ** What the scale clips *)

Lemma List_filter_length_Permutation {A : Type} (f : A → bool) l l' :
  l ≡ₚ l' → length (List.filter f l) = length (List.filter f l').
Proof.
  induction 1 as [|x l l' _ IH|x y l|l l' l'' _ IH1 _ IH2]; simpl.
  - done.
  - destruct (f x); simpl; by rewrite IH.
  - destruct (f x), (f y); done.
  - by rewrite IH1.
Qed.

Lemma StronglySorted_take_le l i v :
  StronglySorted Qle l → l !! i = Some v →
  Forall (λ x, (x <= v)%Q) (take (S i) l).
Proof.
  intros Hl. revert i. induction Hl as [|x l Hl IH Hx]; intros i Hv; [done|].
  destruct i as [|i]; simpl in *.
  - injection Hv as <-. repeat constructor. apply Qle_refl.
  - constructor; [|by apply IH].
    rewrite List.Forall_forall in Hx. apply Hx.
    apply list_elem_of_In. by eapply list_elem_of_lookup_2.
Qed.

Lemma List_filter_none {A : Type} (f : A → bool) l :
  Forall (λ x, f x = false) l → List.filter f l = [].
Proof. induction 1 as [|x l Hx _ IH]; simpl; [done|]. by rewrite Hx. Qed.

Lemma List_filter_length_le {A : Type} (f : A → bool) l :
  length (List.filter f l) ≤ length l.
Proof. induction l as [|x l IH]; simpl; [done|]. destruct (f x); simpl; lia. Qed.

Lemma Qmax_cases a b : Qmax a b = a ∨ Qmax a b = b.
Proof. unfold Qmax, GenericMinMax.gmax. destruct (a ?= b)%Q; auto. Qed.

(** X7: the scale is at least 1 and is 1 or one of the positive amounts of
    the date map, and at most a fifth of those amounts lie above it: they
    are the outliers that are drawn at full intensity. *)
Theorem maxAmount_clips today pd years :
  let M := maxAmount (calendarData today pd years) in
  let amounts := List.filter positive (DayInfo.amount <$> Map_values pd) in
  (1 <= M)%Q
  ∧ (M = 1%Q ∨ M ∈ amounts)
  ∧ 5 * length (List.filter (λ a, negb (Qle_bool a M)) amounts)
    ≤ length amounts.
Proof.
  intros M amounts.
  assert (M = maxAmountP80_spec (DayInfo.amount <$> Map_values pd)) as HM
    by apply maxAmountOf_spec.
  unfold maxAmountP80_spec in HM. fold amounts in HM.
  set (sorted := sort Qle_bool amounts) in *.
  assert (sorted ≡ₚ amounts) as Hperm by apply sort_Permutation.
  split; [apply maxAmount_ge_1|].
  destruct (decide (0 < length sorted)) as [Hn|Hn].
  - pose proof (percentile80Index_lt _ Hn) as Hlt.
    rewrite Nat.min_l in HM by lia.
    destruct (lookup_lt_is_Some_2 sorted _ Hlt) as [v Hv]. rewrite Hv in HM.
    split.
    + destruct (Qmax_cases v 1) as [Hmax|Hmax]; rewrite HM, Hmax; [right|by left].
      rewrite <- Hperm. by eapply list_elem_of_lookup_2.
    + rewrite <- (List_filter_length_Permutation _ _ _ Hperm).
      rewrite <- (Permutation_length Hperm).
      rewrite <- (take_drop (S (percentile80Index (length sorted))) sorted) at 1.
      rewrite List.filter_app, List_filter_none, app_nil_l.
      * etrans; [apply Nat.mul_le_mono_l, List_filter_length_le|].
        rewrite length_drop. unfold percentile80Index in *.
        pose proof (Nat.div_mod_eq (length sorted * 4) 5).
        pose proof (Nat.mod_upper_bound (length sorted * 4) 5). lia.
      * eapply Forall_impl;
          [apply (StronglySorted_take_le sorted _ v); [|done]|].
        -- apply Sorted_StronglySorted; [|apply sort_Qle_Sorted].
           intros x y z. apply Qle_trans.
        -- intros x Hx. cbv beta. apply negb_false_iff, Qle_bool_iff.
           rewrite HM. eapply Qle_trans; [exact Hx|]. apply Q.le_max_l.
  - assert (sorted = []) as Hs by (destruct sorted; [done|simpl in Hn; lia]).
    rewrite Hs in Hperm. apply Permutation_nil_l in Hperm.
    rewrite Hs in HM. rewrite <- Hperm. split; [by left|]. simpl. lia.
Qed.

(** X8: the opacity of a positive amount is the amount over the scale from
    a tenth of the scale up to the scale, and 1 from the scale on; a
    negative amount, which is not 0, is not drawn transparent but with
    opacity 0.1. *)
Theorem opacity_regimes type today pd years a :
  let M := maxAmount (calendarData today pd years) in
  ((a < 0)%Q →
   getColorIntensity type M a
   = rgba (baseColors type).1.1 (baseColors type).1.2 (baseColors type).2 (1 # 10))
  ∧ ((0 < a)%Q →
     ∃ opacity,
       getColorIntensity type M a
       = rgba (baseColors type).1.1 (baseColors type).1.2 (baseColors type).2
           opacity
       ∧ ((M * (1 # 10) <= a)%Q → (a <= M)%Q → (opacity == a / M)%Q)
       ∧ ((M <= a)%Q → (opacity == 1)%Q)).
Proof.
  intros M.
  pose proof (maxAmount_ge_1 today pd years) as HM. fold M in HM.
  assert (0 < M)%Q as HM0 by by apply Qlt_le_trans with 1%Q.
  split.
  - intros Ha. unfold getColorIntensity.
    assert (Qeq_bool a 0 = false) as ->.
    { apply not_true_iff_false. rewrite Qeq_bool_iff. intros Heq.
      rewrite Heq in Ha. by apply Qlt_irrefl in Ha. }
    destruct (baseColors type) as [[r g] b]. cbn [fst snd]. f_equal.
    assert (a / M < 0)%Q as Hneg.
    { apply Qlt_shift_div_r; [done|]. by rewrite Qmult_0_l. }
    assert (intensity M a < 1 # 10)%Q as Hlt.
    { unfold intensity. eapply Qle_lt_trans; [apply Q.le_min_l|].
      by apply Qlt_trans with 0%Q. }
    unfold Qmax, GenericMinMax.gmax.
    destruct (Qcompare_spec (1 # 10) (intensity M a)) as [Heq|Hlt'|Hgt]; try done.
    destruct (Qlt_irrefl (1 # 10)). by apply Qlt_trans with (intensity M a).
  - intros Ha. eexists. split.
    + unfold getColorIntensity.
      rewrite positive_truthy by by apply positive_spec.
      by destruct (baseColors type) as [[? ?] ?].
    + unfold intensity. split.
      * intros Hlow Hhigh.
        assert (a / M <= 1)%Q as H1.
        { apply Qle_shift_div_r; [done|]. by rewrite Qmult_1_l. }
        assert (1 # 10 <= a / M)%Q as H2.
        { apply Qle_shift_div_l; [done|]. by rewrite Qmult_comm. }
        rewrite Q.min_l by done. by apply Q.max_r.
      * intros Hhigh.
        assert (1 <= a / M)%Q as H1.
        { apply Qle_shift_div_l; [done|]. by rewrite Qmult_1_l. }
        rewrite Q.min_r by done. by apply Q.max_r.
Qed.

Lemma opacity_regimes_witness :
  (∃ opacity,
     getColorIntensity income
       (maxAmount (calendarData (mkDate 2026 10 2) oneBucket [2024%Z])) 50
     = rgba 34 197 94 opacity
     ∧ (opacity == 1 # 4)%Q)
  ∧ getColorIntensity income
      (maxAmount (calendarData (mkDate 2026 10 2) oneBucket [2024%Z])) (- (5))
    = rgba 34 197 94 (1 # 10).
Proof.
  destruct (opacity_regimes income (mkDate 2026 10 2) oneBucket [2024%Z] 50)
    as [_ Hpos].
  destruct (Hpos ltac:(reflexivity)) as (opacity & Hcol & Hmid & _).
  split.
  - exists opacity. split; [exact Hcol|].
    rewrite Hmid; [reflexivity|vm_compute; discriminate..].
  - apply (proj1 (opacity_regimes income (mkDate 2026 10 2) oneBucket
                    [2024%Z] (- (5)))).
    reflexivity.
Defined.

(** ** The legend *)

Lemma foldl_Qmin_le x l :
  (foldl Qmin x l <= x)%Q ∧ Forall (λ a, (foldl Qmin x l <= a)%Q) l.
Proof.
  revert x. induction l as [|y l IH]; intros x; simpl.
  - split; [apply Qle_refl|constructor].
  - destruct (IH (Qmin x y)) as [H1 H2]. split.
    + eapply Qle_trans; [exact H1|apply Q.le_min_l].
    + constructor; [|done]. eapply Qle_trans; [exact H1|apply Q.le_min_r].
Qed.

Lemma maxAmountOf_attained bucketAmounts :
  List.filter positive bucketAmounts ≠ [] →
  ∃ v, v ∈ List.filter positive bucketAmounts
       ∧ maxAmountOf bucketAmounts = Qmax v 1.
Proof.
  intros Hne. rewrite maxAmountOf_spec. unfold maxAmountP80_spec.
  set (amounts := List.filter positive bucketAmounts) in *.
  set (sorted := sort Qle_bool amounts).
  assert (sorted ≡ₚ amounts) as Hperm by apply sort_Permutation.
  assert (0 < length sorted) as Hn.
  { rewrite (Permutation_length Hperm). destruct amounts; [done|simpl; lia]. }
  pose proof (percentile80Index_lt _ Hn) as Hlt.
  rewrite Nat.min_l by lia.
  destruct (lookup_lt_is_Some_2 sorted _ Hlt) as [v Hv]. rewrite Hv.
  exists v. split; [|done]. rewrite <- Hperm. by eapply list_elem_of_lookup_2.
Qed.

(** X9: the two amounts of the legend.  When the date map has a positive
    amount, "Less" shows the least of the positive amounts, "More" shows the
    scale of the grid, and the first is at most the second.  When it has
    none both show 0, although the scale of the grid is 1. *)
Theorem legend_amounts today pd years :
  let M := maxAmount (calendarData today pd years) in
  match allAmounts pd with
  | [] => minAmount pd = 0%Q ∧ maxScaleAmount pd = 0%Q ∧ M = 1%Q
  | _ :: _ =>
      minAmount pd ∈ allAmounts pd
      ∧ Forall (λ a, (minAmount pd <= a)%Q) (allAmounts pd)
      ∧ maxScaleAmount pd = M
      ∧ (minAmount pd <= maxScaleAmount pd)%Q
  end.
Proof.
  intros M.
  pose proof (maxScaleAmount_maxAmountOf pd) as Hscale.
  pose proof (maxAmountOf_attained (DayInfo.amount <$> Map_values pd)) as Hatt.
  fold (allAmounts pd) in Hatt.
  assert (M = maxAmountOf (DayInfo.amount <$> Map_values pd)) as HM by done.
  unfold minAmount.
  destruct (allAmounts pd) as [|x l] eqn:Hall.
  - rewrite Hscale. split_and!; [done..|].
    rewrite HM. unfold maxAmountOf. fold (allAmounts pd). by rewrite Hall.
  - cbn [length Nat.ltb Nat.leb] in Hscale |- *. cbn [minOf].
    destruct (foldl_Qmin_le x l) as [Hx Hl].
    assert (Forall (λ a, (foldl Qmin x l <= a)%Q) (x :: l)) as Hmin
      by by constructor.
    split_and!; [apply foldl_Qmin_elem|done|by rewrite Hscale|].
    rewrite Hscale. destruct Hatt as (v & Hv & ->); [done|].
    eapply Qle_trans; [|apply Q.le_max_l].
    rewrite List.Forall_forall in Hmin. apply Hmin. by apply list_elem_of_In.
Qed.

(** ** Clicks on the cells of a grid *)

Lemma handleCellClick_Some_iff type tz cellData :
  handleCellClick type tz cellData ≠ None
  ↔ isCurrentMonth cellData = true ∧ count cellData ≠ 0.
Proof.
  unfold handleCellClick.
  destruct (isCurrentMonth cellData), (Nat.eqb_spec (count cellData) 0);
    simpl; split; try done; try by intros [? ?].
Qed.

Lemma filter_nonempty {A : Type} (P : A → Prop) `{!∀ x, Decision (P x)}
    (l : list A) :
  length (filter P l) ≠ 0 ↔ ∃ x, x ∈ l ∧ P x.
Proof.
  split.
  - destruct (filter P l) as [|x l'] eqn:Hf; [done|]. intros _.
    assert (x ∈ filter P l) as Hx by (rewrite Hf; left).
    apply list_elem_of_filter in Hx as [? ?]. by exists x.
  - intros (x & Hx & HP).
    assert (x ∈ filter P l) as Hf by by apply list_elem_of_filter.
    destruct (filter P l); [by apply elem_of_nil in Hf|done].
Qed.

(** X10: in the grid built from the transactions, a click on a cell asks
    for a navigation exactly when the day of the cell exists in the
    reference year and some transaction, of any year, is dated that day and
    month. *)
Theorem click_navigates convert currency today type tz data c r col :
  pipeline convert currency today data = Ok c → r < 31 → col < 12 →
  ∃ cellData,
    grid c !! r ≫= (.!! col) = Some cellData
    ∧ (handleCellClick type tz cellData ≠ None
       ↔ 1 + r ≤ lastDayOfMonth (getFullYear today) col
         ∧ ∃ t, t ∈ data ∧ onDay col (1 + r) t).
Proof.
  intros (dm & Hdm & ->)%pipeline_Ok Hr Hc.
  exists (cell today dm (displayYears data) (1 + r) col).
  split; [by apply grid_lookup|].
  rewrite handleCellClick_Some_iff, cell_isCurrentMonth.
  rewrite (cell_count_onDay _ _ today _ _ (1 + r) col Hdm).
  destruct (Nat.leb_spec (1 + r) (lastDayOfMonth (getFullYear today) col)).
  - rewrite filter_nonempty. tauto.
  - split; [by intros [? _]|]. intros [? _]. lia.
Qed.

Lemma click_navigates_witness :
  ∃ cellData,
    grid (calendarData (mkDate 2026 10 2)
            threeYearsMap [2022%Z; 2023%Z; 2024%Z]) !! 4 ≫= (.!! 2) = Some cellData
    ∧ handleCellClick income 0 cellData ≠ None.
Proof.
  destruct (click_navigates identityConversion "USD" (mkDate 2026 10 2) income
              0 threeYears _ 4 2 (proj2 (threeYears_pipeline _))
              ltac:(lia) ltac:(lia))
    as (cellData & Hlook & Hnav).
  exists cellData. split; [exact Hlook|]. apply Hnav. split.
  - vm_compute. lia.
  - exists (Transaction.mk 4 (mkDate 2024 2 5) 20 "USD").
    split; [do 3 right; left|]. split; reflexivity.
Defined.



(** ** The order of the transactions *)





(** ** What the exports keep *)

Lemma csv_lookup today pd years r c :
  r < 31 → c < 12 →
  csvDataForControls (calendarData today pd years) !! (1 + (r * 12 + c))
  = Some (csvRow monthNamesList r c (cell today pd years (1 + r) c)).
Proof.
  intros Hr Hc. unfold csvDataForControls.
  change (1 + (r * 12 + c)) with (S (r * 12 + c)).
  rewrite lookup_cons. cbv beta iota.
  rewrite (join_lookup_uniform 12); [|..|done].
  2:{ apply Forall_forall. intros row (i & Hrow)%list_elem_of_lookup_1.
      rewrite list_lookup_imap in Hrow.
      unfold calendarData in Hrow. cbn [grid] in Hrow.
      rewrite list_lookup_fmap in Hrow.
      destruct (seq 1 31 !! i); simplify_eq/=. done. }
  rewrite list_lookup_imap.
  pose proof (grid_lookup today pd years r c Hr Hc) as Hcell.
  destruct (grid (calendarData today pd years) !! r) as [row|] eqn:Hrow;
    [|done].
  simpl in Hcell |- *. by rewrite list_lookup_imap, Hcell.
Qed.

(** X13: the CSV table keeps the validity and the counts of the grid: two
    calendars with the same table agree, cell by cell, on which cells are
    valid and on the count of every valid cell. *)
Theorem csv_keeps_counts today1 pd1 years1 today2 pd2 years2 r col :
  r < 31 → col < 12 →
  csvDataForControls (calendarData today1 pd1 years1)
  = csvDataForControls (calendarData today2 pd2 years2) →
  isCurrentMonth (cell today1 pd1 years1 (1 + r) col)
  = isCurrentMonth (cell today2 pd2 years2 (1 + r) col)
  ∧ (isCurrentMonth (cell today1 pd1 years1 (1 + r) col) = true →
     count (cell today1 pd1 years1 (1 + r) col)
     = count (cell today2 pd2 years2 (1 + r) col)).
Proof.
  intros Hr Hc Hcsv.
  pose proof (csv_lookup today1 pd1 years1 r col Hr Hc) as H1.
  pose proof (csv_lookup today2 pd2 years2 r col Hr Hc) as H2.
  rewrite Hcsv, H2 in H1. clear H2 Hcsv.
  set (x1 := cell today1 pd1 years1 (1 + r) col) in *.
  set (x2 := cell today2 pd2 years2 (1 + r) col) in *.
  apply (f_equal (λ row, (row ≫= (.!! 3), row ≫= (.!! 7)))) in H1.
  unfold csvRow in H1. cbn [mbind option_bind lookup list_lookup] in H1.
  destruct (isCurrentMonth x1), (isCurrentMonth x2); try done.
  injection H1 as Hcount. split; [done|]. intros _. symmetry.
  by apply (inj pretty).
Qed.

Lemma csv_keeps_counts_witness :
  count (cell (mkDate 2026 10 2) bucketsByYear [2023%Z; 2024%Z] (1 + 4) 2)
  = count (cell (mkDate 2026 10 2) (reverse bucketsByYear) [2024%Z; 2023%Z]
             (1 + 4) 2).
Proof.
  apply (csv_keeps_counts (mkDate 2026 10 2) bucketsByYear [2023%Z; 2024%Z]
           (mkDate 2026 10 2) (reverse bucketsByYear) [2024%Z; 2023%Z] 4 2);
    [lia|lia|vm_compute; reflexivity|vm_compute; reflexivity].
Defined.

Lemma sum_list_with_plus {A : Type} (f g : A → nat) l :
  sum_list_with (λ x, f x + g x) l = sum_list_with f l + sum_list_with g l.
Proof. induction l as [|x l IH]; simpl; [done|]. rewrite IH. lia. Qed.

Lemma sum_list_with_const {A : Type} (l : list A) :
  sum_list_with (λ _, 1) l = length l.
Proof. induction l as [|x l IH]; simpl; [done|]. by rewrite IH. Qed.

Lemma length_join_imap {A B : Type} (f : nat → A → list B) (g : A → nat) l :
  (∀ i x, length (f i x) = g x) →
  length (mjoin (imap f l)) = sum_list_with g l.
Proof.
  revert f. induction l as [|x l IH]; intros f Hf; [done|].
  rewrite imap_cons. change (mjoin (?a :: ?b)) with (a ++ mjoin b)%list.
  rewrite length_app, Hf, IH; [done|]. intros i y. apply Hf.
Qed.

(** X14: the SVG document has no content without a chart element; with one
    it holds, in this order, the background and the title, the 12 month
    headers, for each of the 31 rows a day label and a rectangle per cell,
    followed by a count label for a valid cell with transactions, and the
    legend of a text, five rectangles and a text: 424 elements and one more
    for every valid cell that has transactions. *)
Theorem svg_elements Number_toString Number_toLocaleString type currency title
    timePeriodText today pd years rect :
  downloadCalendarChartAsSVG Number_toString Number_toLocaleString type currency
    title timePeriodText pd (calendarData today pd years) None = None
  ∧ ∃ doc,
      downloadCalendarChartAsSVG Number_toString Number_toLocaleString type
        currency title timePeriodText pd (calendarData today pd years)
        (Some rect) = Some doc
      ∧ length (childNodes doc)
        = 424 + length (filter (λ x, isCurrentMonth x = true ∧ 0 < count x)
                          (mjoin (grid (calendarData today pd years)))).
Proof.
  split; [done|]. destruct rect as [w h]. eexists. split; [reflexivity|].
  cbn [childNodes]. rewrite !length_app, !length_imap.
  set (cellWidth := inject_Z _).
  rewrite (length_join_imap _
             (λ row, 1 + sum_list_with
                           (λ x, 1 + (if decide (isCurrentMonth x = true ∧ 0 < count x)
                                      then 1 else 0)) row)).
  2:{ intros i row. cbn [length]. f_equal.
      apply length_join_imap. intros j x. unfold svgCell. cbn [length]. f_equal.
      destruct (isCurrentMonth x), (Nat.ltb_spec 0 (count x));
        cbn [andb length];
        (destruct (decide _) as [[? ?]|Hn]; [try done; lia|try done]).
      destruct Hn. by split. }
  rewrite sum_list_with_plus, sum_list_with_const.
  rewrite <- (sum_list_with_bind _ id), <- list_join_bind.
  rewrite sum_list_with_plus, sum_list_with_const, <- length_filter_sum.
  change (length (monthNames (calendarData today pd years))) with 12.
  change (length (grid (calendarData today pd years))) with 31.
  change (length (mjoin (grid (calendarData today pd years)))) with 372.
  simpl length. lia.
Qed.

(** ** The order of the years on display *)

Lemma insert_sorted_Sorted {A : Type} (le : A → A → bool) x l :
  (∀ a b, le a b = false → le b a = true) →
  Sorted (λ a b, le a b = true) l →
  Sorted (λ a b, le a b = true) (insert_sorted le x l).
Proof.
  intros Htotal. induction 1 as [|y l Hl IH Hy]; simpl.
  - by repeat constructor.
  - destruct (le x y) eqn:Hxy.
    + by repeat constructor.
    + constructor; [done|].
      destruct Hy as [|z l Hyz]; simpl; [constructor; by apply Htotal|].
      destruct (le x z); constructor; [by apply Htotal|done].
Qed.

Lemma sort_Sorted {A : Type} (le : A → A → bool) l :
  (∀ a b, le a b = false → le b a = true) →
  Sorted (λ a b, le a b = true) (sort le l).
Proof.
  intros Htotal. induction l as [|x l IH]; simpl; [constructor|].
  by apply insert_sorted_Sorted.
Qed.

Lemma String_leb_total s1 s2 : String.leb s1 s2 = false → String.leb s2 s1 = true.
Proof.
  unfold String.leb. rewrite (String.compare_antisym s1 s2).
  by destruct (String.compare s2 s1).
Qed.

Lemma Sorted_weaken {A : Type} (R S : A → A → Prop) l :
  (∀ x y, x ∈ l → y ∈ l → R x y → S x y) → Sorted R l → Sorted S l.
Proof.
  intros HRS Hl. induction Hl as [|x l Hl IH Hx]; [constructor|].
  constructor.
  - apply IH. intros a b Ha Hb. apply HRS; by right.
  - destruct Hx as [|y l' Hxy]; constructor.
    apply HRS; [left|right; left|done].
Qed.

Lemma pretty_N_char_compare a b :
  (a < 10)%N → (b < 10)%N →
  Ascii.compare (pretty_N_char a) (pretty_N_char b) = (a ?= b)%N.
Proof.
  intros Ha Hb.
  rewrite <- (N2Nat.id a), <- (N2Nat.id b).
  assert (N.to_nat a < 10) as Ha' by lia.
  assert (N.to_nat b < 10) as Hb' by lia.
  generalize dependent (N.to_nat a). generalize dependent (N.to_nat b).
  intros m Hm n Hn.
  do 10 (destruct n as [|n];
         [do 10 (destruct m as [|m]; [vm_compute; reflexivity|]); lia|]).
  lia.
Qed.

(** The decimal form of a number of four digits. *)
Lemma pretty_four_digits (x : N) :
  (1000 ≤ x < 10000)%N →
  pretty x
  = String (pretty_N_char (x / 10 / 10 / 10))
      (String (pretty_N_char (x / 10 / 10 mod 10))
         (String (pretty_N_char (x / 10 mod 10))
            (String (pretty_N_char (x mod 10)) ""))).
Proof.
  intros Hx. unfold pretty, pretty_N.
  rewrite decide_False by lia.
  assert (0 < x / 10 ∧ 0 < x / 10 / 10
          ∧ 0 < x / 10 / 10 / 10 < 10)%N as (H1 & H2 & H3 & H4).
  { zify. Z.to_euclidean_division_equations. lia. }
  rewrite 4!pretty_N_go_step by lia.
  replace (x / 10 / 10 / 10 / 10)%N with 0%N
    by (symmetry; apply N.div_small; lia).
  rewrite pretty_N_go_0.
  by rewrite (N.mod_small (x / 10 / 10 / 10) 10).
Qed.

(** On years of four digits the order of the decimal forms is the order of
    the numbers. *)
Lemma String_leb_four_digits (a b : Z) :
  (1000 ≤ a ≤ 9999)%Z → (1000 ≤ b ≤ 9999)%Z →
  String.leb (pretty a) (pretty b) = true → (a ≤ b)%Z.
Proof.
  intros Ha Hb.
  destruct a as [|p|p]; [lia| |lia]. destruct b as [|q|q]; [lia| |lia].
  unfold pretty at 1 2, pretty_Z. unfold pretty at 1 2, pretty_positive.
  rewrite !pretty_four_digits by lia.
  set (x := N.pos p) in *. set (y := N.pos q) in *.
  change (Z.pos p) with (Z.of_N x) in *. change (Z.pos q) with (Z.of_N y) in *.
  clearbody x y. clear p q.
  assert (∀ n : N, (1000 ≤ Z.of_N n ≤ 9999)%Z →
            (n = n / 10 / 10 / 10 * 1000 + n / 10 / 10 mod 10 * 100
                 + n / 10 mod 10 * 10 + n mod 10
             ∧ n / 10 / 10 / 10 < 10 ∧ n / 10 / 10 mod 10 < 10
             ∧ n / 10 mod 10 < 10 ∧ n mod 10 < 10)%N) as Hdigits.
  { intros n Hn. zify. Z.to_euclidean_division_equations. lia. }
  destruct (Hdigits x Ha) as (Hx & Hx3 & Hx2 & Hx1 & Hx0).
  destruct (Hdigits y Hb) as (Hy & Hy3 & Hy2 & Hy1 & Hy0).
  clear Hdigits.
  unfold String.leb. cbn [String.compare].
  rewrite !pretty_N_char_compare by done.
  set (x3 := (x / 10 / 10 / 10)%N) in *. set (x2 := (x / 10 / 10 mod 10)%N) in *.
  set (x1 := (x / 10 mod 10)%N) in *. set (x0 := (x mod 10)%N) in *.
  set (y3 := (y / 10 / 10 / 10)%N) in *. set (y2 := (y / 10 / 10 mod 10)%N) in *.
  set (y1 := (y / 10 mod 10)%N) in *. set (y0 := (y mod 10)%N) in *.
  clearbody x3 x2 x1 x0 y3 y2 y1 y0.
  destruct (N.compare_spec x3 y3); [|intros _; lia|done].
  destruct (N.compare_spec x2 y2); [|intros _; lia|done].
  destruct (N.compare_spec x1 y1); [|intros _; lia|done].
  destruct (N.compare_spec x0 y0); [|intros _; lia|done].
  intros _. lia.
Qed.

(** X15: the years on display are the years of the transactions, each
    once, in the order of their decimal forms; when all are years of four
    digits this is the ascending order of the numbers. *)
Theorem displayYears_order data :
  NoDup (displayYears data)
  ∧ (∀ y, y ∈ displayYears data
          ↔ ∃ t, t ∈ data ∧ getFullYear (Transaction.date t) = y)
  ∧ Sorted (λ a b, String.leb (pretty a) (pretty b) = true) (displayYears data)
  ∧ (Forall (λ t, (1000 ≤ getFullYear (Transaction.date t) ≤ 9999)%Z) data →
     Sorted Z.le (displayYears data)).
Proof.
  assert (Sorted (λ a b, String.leb (pretty a) (pretty b) = true)
            (displayYears data)) as Hsorted.
  { apply (sort_Sorted (λ a b : Z, String.leb (pretty a) (pretty b))).
    intros a b. apply String_leb_total. }
  split_and!; [apply displayYears_NoDup|apply elem_of_displayYears_iff|done|].
  intros Hrange. eapply Sorted_weaken; [|exact Hsorted].
  rewrite Forall_forall in Hrange.
  intros a b (ta & Hta & <-)%elem_of_displayYears_iff
    (tb & Htb & <-)%elem_of_displayYears_iff.
  apply String_leb_four_digits; by apply Hrange.
Qed.

Lemma displayYears_order_witness : Sorted Z.le (displayYears (reverse threeYears)).
Proof.
  apply (proj2 (proj2 (proj2 (displayYears_order (reverse threeYears))))).
  repeat constructor; vm_compute; discriminate.
Defined.

Example displayYears_three_digits :
  displayYears [Transaction.mk 1 (mkDate 2023 2 5) 100 "USD";
                Transaction.mk 2 (mkDate 999 2 5) 50 "USD"]
  = [2023%Z; 999%Z].
Proof. vm_compute. reflexivity. Qed.

(** ** The layout of the SVG export *)

(** X16: the exported drawing fits its canvas. The canvas is at least 2500
    by 1000; the column width is the floor of a twelfth of what the margins
    and the day labels leave, at least 196, so the twelve columns end before
    the right margin and a cell's rectangle, 3 narrower, has a positive
    width; every cell of the grid is drawn, at its row and column, with that
    width; and the legend squares of a 31-row grid end at 940, inside the
    canvas. *)
Theorem svg_layout Number_toString Number_toLocaleString type currency title
    timePeriodText today pd years rectWidth rectHeight :
  let cd := calendarData today pd years in
  let width := Qmax 2500 (rectWidth * (3 # 2)) in
  let height := Qmax 1000 rectHeight in
  ∃ doc cellWidth,
    downloadCalendarChartAsSVG Number_toString Number_toLocaleString type
      currency title timePeriodText pd cd (Some (rectWidth, rectHeight))
    = Some doc
    ∧ svgAttributes doc
      = [("width", Number_toString width); ("height", Number_toString height);
         ("xmlns", "http://www.w3.org/2000/svg")]
    ∧ cellWidth = inject_Z (Qfloor ((width - gridStartX * 2 - dayLabelWidth) / 12))
    ∧ (196 <= cellWidth)%Q
    ∧ (gridStartX + dayLabelWidth + 12 * cellWidth <= width - gridStartX)%Q
    ∧ (gridStartY + Qnat (length (grid cd)) * cellHeight + 60 - 15 + 20
       <= height)%Q
    ∧ ∀ r c row x, grid cd !! r = Some row → row !! c = Some x →
        ∀ e, e ∈ svgCell Number_toString type cd cellWidth r c x →
             e ∈ childNodes doc.
Proof.
  intros cd width height. eexists. eexists.
  split; [reflexivity|]. split; [reflexivity|]. split; [reflexivity|].
  assert (2500 <= width)%Q as Hw by apply Q.le_max_l.
  assert (1000 <= height)%Q as Hh by apply Q.le_max_l.
  set (g := ((width - gridStartX * 2 - dayLabelWidth) / 12)%Q).
  split; [|split; [|split]].
  - change 196%Q with (inject_Z (Qfloor ((2500 - 40 * 2 - 60) / 12))).
    rewrite <- Zle_Qle. apply Qfloor_resp_le. unfold g, Qdiv.
    apply Qmult_le_compat_r; [|done].
    unfold gridStartX, dayLabelWidth.
    apply Qplus_le_l. apply Qplus_le_l. exact Hw.
  - assert (inject_Z (Qfloor g) <= g)%Q as Hfl by apply Qfloor_le.
    assert (12 * inject_Z (Qfloor g) <= 12 * g)%Q as H12.
    { rewrite !(Qmult_comm 12). by apply Qmult_le_compat_r. }
    assert (12 * g == width - gridStartX * 2 - dayLabelWidth)%Q as Hg.
    { unfold g. field. }
    rewrite Hg in H12. unfold gridStartX, dayLabelWidth in *.
    apply (Qplus_le_r _ _ (40 + 60)) in H12.
    eapply Qle_trans; [exact H12|]. apply Qle_minus_iff. ring_simplify. done.
  - change (length (grid cd)) with 31.
    eapply Qle_trans; [|exact Hh]. done.
  - intros r c row x Hr Hc e He. cbn [childNodes].
    rewrite !elem_of_app. right. right. left.
    apply list_elem_of_join.
    exists (svgDayLabel Number_toString r
            :: mjoin (imap (svgCell Number_toString type cd
                              (inject_Z (Qfloor g)) r) row)).
    split; [|exact (elem_of_lookup_imap_2 _ _ _ _ Hr)].
    apply elem_of_cons. right. apply list_elem_of_join.
    eexists. split; [exact He|].
    exact (elem_of_lookup_imap_2 _ _ _ _ Hc).
Qed.
